(** * GreatFET logic-analyzer driver: command and transfer protocol layer

    A shallow embedding of the libgreat command executor, the synchronous
    wrapper around asynchronous USB control transfers, the bulk-transfer
    pool and [greatfet_configure], followed by the properties of the
    protocol specification that concern them.

    Conventions of the embedding.
    - C integers are [Z]; a conversion to [uint8_t], [uint16_t] or
      [uint32_t] is written out as a reduction modulo a power of two.
    - Memory blocks are [list byte]; a pointer that may be [NULL] is an
      [option].  A [memcpy] of [n > 0] bytes from or to [NULL], or past
      the end of the block a pointer designates, is a fault.
    - The USB stack is an environment: it says whether allocations
      succeed, what [libusb_submit_transfer] returns, and what each call
      of [libusb_handle_events_completed] does.  A finite list of
      event-loop rounds is given; once it is used up without the
      transfer completing, the wait never ends ([Hangs]).
    - Every function returns, next to its result, the list of calls it
      made on the USB stack and on the allocator, in order.
    - The host is little-endian and structs follow the usual ABI
      ([uint32_t] aligned on four bytes). *)

From Stdlib Require Import ZArith List Lia Bool.
From Stdlib Require Import Strings.Byte.
From stdpp Require Import base option list.
Import ListNotations.

Local Open Scope Z_scope.

(** ** Bytes and fixed-width integers *)

Definition u8 (z : Z) : Z := z mod 256.
Definition u16 (z : Z) : Z := z mod 65536.
Definition u32 (z : Z) : Z := z mod 4294967296.

Definition byte_of_Z (z : Z) : byte :=
  default x00 (Byte.of_N (Z.to_N (z mod 256))).

Definition Z_of_byte (b : byte) : Z := Z.of_N (Byte.to_N b).

(** [libusb_cpu_to_le16] followed by the store of the two bytes. *)
Definition le16 (z : Z) : list byte :=
  [byte_of_Z z; byte_of_Z (Z.shiftr z 8)].

Definition le32 (z : Z) : list byte :=
  [byte_of_Z z; byte_of_Z (Z.shiftr z 8);
   byte_of_Z (Z.shiftr z 16); byte_of_Z (Z.shiftr z 24)].

(** Reading a little-endian [uint32_t] at offset [off] of a block. *)
Definition read_le32 (off : nat) (l : list byte) : Z :=
  let b i := Z_of_byte (default x00 (l !! (off + i)%nat)) in
  b 0%nat + Z.shiftl (b 1%nat) 8 + Z.shiftl (b 2%nat) 16 + Z.shiftl (b 3%nat) 24.

Definition read_u8 (off : nat) (l : list byte) : Z :=
  Z_of_byte (default x00 (l !! off)).

(** ** libusb constants (libusb.h) *)

Definition LIBUSB_CONTROL_SETUP_SIZE : Z := 8.
Definition LIBUSB_ENDPOINT_IN : Z := 128.
Definition LIBUSB_ENDPOINT_OUT : Z := 0.
Definition LIBUSB_REQUEST_TYPE_VENDOR : Z := 64.
Definition LIBUSB_RECIPIENT_ENDPOINT : Z := 2.

Definition LIBUSB_ERROR_IO : Z := -1.
Definition LIBUSB_ERROR_INVALID_PARAM : Z := -2.
Definition LIBUSB_ERROR_NO_DEVICE : Z := -4.
Definition LIBUSB_ERROR_BUSY : Z := -6.
Definition LIBUSB_ERROR_INTERRUPTED : Z := -10.
Definition LIBUSB_ERROR_NO_MEM : Z := -11.

Definition LIBUSB_TRANSFER_COMPLETED : Z := 0.
Definition LIBUSB_TRANSFER_ERROR : Z := 1.
Definition LIBUSB_TRANSFER_NO_DEVICE : Z := 5.

(** ** Outcomes, handles and the call trace *)

Inductive outcome (A : Type) : Type :=
| Returned (a : A)
| Hangs
| Faults.
Arguments Returned {A} a.
Arguments Hangs {A}.
Arguments Faults {A}.

(** An open device ([libusb_device_handle *]) and a pooled bulk transfer
    ([struct libusb_transfer *]) are identified by a number. *)
Definition handle : Type := nat.
Definition transfer_id : Type := nat.

Inductive call : Type :=
| Call_sync_async_control_transfer
    (request_type bRequest wValue wIndex wLength : Z)
| Call_libusb_alloc_transfer
| Call_malloc (size : Z)
| Call_libusb_submit_transfer (buffer : list byte)
| Call_libusb_handle_events_completed
| Call_libusb_cancel_transfer
| Call_free
| Call_libusb_free_transfer
| Call_libusb_claim_interface (interface_number : Z).

Definition is_control_transfer (c : call) : bool :=
  match c with Call_sync_async_control_transfer _ _ _ _ _ => true | _ => false end.

Definition is_submit (c : call) : bool :=
  match c with Call_libusb_submit_transfer _ => true | _ => false end.


Definition count_calls (p : call -> bool) (cs : list call) : nat :=
  length (List.filter p cs).

(** ** memcpy *)

(** The [n] bytes a [memcpy] reads from [src]. *)
Definition memcpy_read (src : option (list byte)) (n : nat) : option (list byte) :=
  match n with
  | O => Some []
  | _ =>
    match src with
    | None => None
    | Some l => if (n <=? length l)%nat then Some (take n l) else None
    end
  end.

(** The block [dst] after a [memcpy] of the first [n] bytes of [src]. *)
Definition memcpy_write (dst : option (list byte)) (src : list byte) (n : nat)
  : option (option (list byte)) :=
  match n with
  | O => Some dst
  | _ =>
    match dst with
    | None => None
    | Some l =>
      if (n <=? length l)%nat then Some (Some (take n src ++ drop n l)) else None
    end
  end.

(** [block] with [data] stored at offset [off]. *)
Definition store_at (off : nat) (data block : list byte) : list byte :=
  take off block ++ data ++ drop (off + length data) block.

(** ** The control transfer object and the event loop *)

Record libusb_transfer : Type := {
  dev_handle : option handle;
  status : Z;
  length_ : Z;
  actual_length : Z;
  buffer : list byte;
  (** the [int] that [user_data] points to: [transfer_completed] *)
  completed : bool;
}.

(** What libusb has put in the transfer when it runs the completion
    callback: the final status and the data stage.  [c_data] is what the
    device sent when the direction is device-to-host; when it is
    host-to-device only its length counts, as the number of bytes that
    went out. *)
Record completion : Type := {
  c_status : Z;
  c_data : list byte;
}.

(** One call of [libusb_handle_events_completed]: its return value,
    whether the transfer completed during it (libusb then fills in the
    transfer and runs the callback), and whether [transfer->dev_handle]
    is [NULL] afterwards. *)
Record pump : Type := {
  pump_rc : Z;
  pump_callback : option completion;
  pump_handle_gone : bool;
}.

Definition transfer_is_in (t : libusb_transfer) : bool :=
  match buffer t with
  | b :: _ => Z.testbit (Z_of_byte b) 7
  | [] => false
  end.

(** libusb moves at most [wLength] bytes and stores those it receives
    behind the setup packet. *)
Definition deliver (c : completion) (t : libusb_transfer) : libusb_transfer :=
  let moved :=
    take (Z.to_nat (length_ t - LIBUSB_CONTROL_SETUP_SIZE)) (c_data c) in
  {| dev_handle := dev_handle t;
     status := c_status c;
     length_ := length_ t;
     actual_length := Z.of_nat (length moved);
     buffer :=
       if transfer_is_in t
       then store_at (Z.to_nat LIBUSB_CONTROL_SETUP_SIZE) moved (buffer t)
       else buffer t;
     (* greatfet_libusb_transfer_complete_cb: *complete = 1 *)
     completed := true |}.

Definition lose_handle (t : libusb_transfer) : libusb_transfer :=
  {| dev_handle := None; status := status t; length_ := length_ t;
     actual_length := actual_length t; buffer := buffer t;
     completed := completed t |}.

Definition libusb_handle_events_completed (p : pump) (t : libusb_transfer)
  : libusb_transfer :=
  let t1 := match pump_callback p with Some c => deliver c t | None => t end in
  if pump_handle_gone p then lose_handle t1 else t1.

Definition force_no_device (t : libusb_transfer) : libusb_transfer :=
  {| dev_handle := dev_handle t; status := LIBUSB_TRANSFER_NO_DEVICE;
     length_ := length_ t; actual_length := actual_length t;
     buffer := buffer t; completed := true |}.

Record wait_result : Type := {
  (** [None] inside [Returned] is the value of the local [rc] when it
      was never assigned *)
  wait_outcome : outcome (option Z);
  wait_transfer : libusb_transfer;
  wait_calls : list call;
}.

(** The [while (!*completed)] loop; [rc] is the local of that name. *)
Fixpoint wait_loop (rc : option Z) (t : libusb_transfer) (calls : list call)
  (pumps : list pump) : wait_result :=
  if completed t then
    {| wait_outcome := Returned rc; wait_transfer := t; wait_calls := calls |}
  else
    match pumps with
    | [] => {| wait_outcome := Hangs; wait_transfer := t; wait_calls := calls |}
    | p :: pumps' =>
      let t1 := libusb_handle_events_completed p t in
      let calls1 := calls ++ [Call_libusb_handle_events_completed] in
      let rc1 := pump_rc p in
      if rc1 <? 0 then
        if rc1 =? LIBUSB_ERROR_INTERRUPTED then
          wait_loop (Some rc1) t1 calls1 pumps'
        else
          {| wait_outcome := Returned (Some rc1); wait_transfer := t1;
             wait_calls := calls1 ++ [Call_libusb_cancel_transfer] |}
      else
        let t2 := match dev_handle t1 with
                  | Some _ => t1
                  | None => force_no_device t1
                  end in
        wait_loop (Some rc1) t2 calls1 pumps'
    end.

Definition sync_transfer_wait_for_completion (t : libusb_transfer)
  (pumps : list pump) : wait_result :=
  wait_loop None t [] pumps.

(** ** The synchronous control transfer *)

(** The USB stack and the allocator as one control transfer sees them. *)
Record xfer_env : Type := {
  (** [libusb_alloc_transfer] returns a transfer rather than [NULL] *)
  env_alloc_transfer : bool;
  (** [malloc]: [None] is [NULL]; [Some g] is a fresh block whose byte
      at offset [i] holds [g i] before it is written *)
  env_malloc : option (nat -> byte);
  (** the value [libusb_submit_transfer] returns *)
  env_submit : Z;
  (** the successive calls of [libusb_handle_events_completed] *)
  env_pumps : list pump;
}.

Record xfer_result : Type := {
  xr_outcome : outcome Z;
  (** the block [data] points to, after the call *)
  xr_data : option (list byte);
  xr_calls : list call;
}.

(** The eight bytes of [struct libusb_control_setup]. *)
Definition setup_packet (bmRequestType bRequest wValue wIndex wLength : Z)
  : list byte :=
  [byte_of_Z bmRequestType; byte_of_Z bRequest]
    ++ le16 wValue ++ le16 wIndex ++ le16 wLength.

Definition libusb_fill_control_setup (buffer : list byte)
  (bmRequestType bRequest wValue wIndex wLength : Z) : list byte :=
  store_at 0 (setup_packet bmRequestType bRequest wValue wIndex wLength) buffer.

(** The transfer comes zeroed from [libusb_alloc_transfer];
    [user_data] points to [transfer_completed], which is [0]. *)
Definition libusb_fill_control_transfer (h : handle) (buffer : list byte)
  : libusb_transfer :=
  {| dev_handle := Some h;
     status := 0;
     length_ := LIBUSB_CONTROL_SETUP_SIZE + read_u8 6 buffer + Z.shiftl (read_u8 7 buffer) 8;
     actual_length := 0;
     buffer := buffer;
     completed := false |}.

(** The scratch buffer as it is submitted: the fresh block with the
    setup packet at its start and, when the direction is host-to-device,
    the data stage behind it.  [None] when that [memcpy] faults. *)
Definition control_buffer (fresh : nat -> byte)
  (request_type bRequest wValue wIndex : Z) (data : option (list byte))
  (wLength : Z) : option (list byte) :=
  let size := LIBUSB_CONTROL_SETUP_SIZE + wLength + 1 in
  let buffer0 := map fresh (seq 0 (Z.to_nat size)) in
  let buffer1 :=
    libusb_fill_control_setup buffer0 request_type bRequest wValue wIndex wLength in
  if Z.land request_type 128 =? LIBUSB_ENDPOINT_OUT then
    match memcpy_read data (Z.to_nat wLength) with
    | Some bytes =>
      Some (store_at (Z.to_nat LIBUSB_CONTROL_SETUP_SIZE) bytes buffer1)
    | None => None
    end
  else Some buffer1.

Definition sync_async_control_transfer (E : xfer_env)
  (dev_handle : option handle) (request_type bRequest wValue wIndex : Z)
  (data : option (list byte)) (wLength : Z) (timeout : Z) : xfer_result :=
  let request_type := u8 request_type in
  let bRequest := u8 bRequest in
  let wValue := u16 wValue in
  let wIndex := u16 wIndex in
  let wLength := u16 wLength in
  let entered :=
    [Call_sync_async_control_transfer request_type bRequest wValue wIndex wLength] in
  match dev_handle with
  | None =>
    {| xr_outcome := Returned LIBUSB_ERROR_INVALID_PARAM;
       xr_data := data; xr_calls := entered |}
  | Some h =>
    (* if (!data) { sr_err(...); }  -- logs, and goes on *)
    let calls1 := entered ++ [Call_libusb_alloc_transfer] in
    if negb (env_alloc_transfer E) then
      {| xr_outcome := Returned LIBUSB_ERROR_NO_MEM;
         xr_data := data; xr_calls := calls1 |}
    else
      let calls2 :=
        calls1 ++ [Call_malloc (LIBUSB_CONTROL_SETUP_SIZE + wLength + 1)] in
      match env_malloc E with
      | None =>
        {| xr_outcome := Returned LIBUSB_ERROR_NO_MEM;
           xr_data := data; xr_calls := calls2 |}
      | Some fresh =>
        match control_buffer fresh request_type bRequest wValue wIndex data wLength with
        | None =>
          {| xr_outcome := Faults; xr_data := data; xr_calls := calls2 |}
        | Some buffer2 =>
          let transfer := libusb_fill_control_transfer h buffer2 in
          let rc := env_submit E in
          let calls3 := calls2 ++ [Call_libusb_submit_transfer buffer2] in
          let w := sync_transfer_wait_for_completion transfer (env_pumps E) in
          let calls4 := calls3 ++ wait_calls w in
          match wait_outcome w with
          | Returned _ =>
            let copied :=
              if negb (Z.land request_type LIBUSB_ENDPOINT_IN =? 0) then
                memcpy_write data (buffer (wait_transfer w)) (Z.to_nat wLength)
              else Some data in
            match copied with
            | None =>
              {| xr_outcome := Faults; xr_data := data; xr_calls := calls4 |}
            | Some data' =>
              {| xr_outcome := Returned rc; xr_data := data';
                 xr_calls := calls4 ++ [Call_free; Call_libusb_free_transfer] |}
            end
          | Hangs => {| xr_outcome := Hangs; xr_data := data; xr_calls := calls4 |}
          | Faults => {| xr_outcome := Faults; xr_data := data; xr_calls := calls4 |}
          end
        end
      end
  end.

(** ** protocol.h *)

(** The constants the driver takes from its header, which fixes their
    values; the functions below are read for any values of them. *)
Class protocol_h : Type := {
  GREATFET_LIBGREAT_REQUEST_NUMBER : Z;
  GREATFET_LIBGREAT_VALUE_EXECUTE : Z;
  GREATFET_LIBGREAT_FLAG_SKIP_RESPONSE : Z;
  GREATFET_CLASS_LA : Z;
  GREATFET_LA_VERB_CONFIGURE : Z;
  GREATFET_LOGIC_DEFAULT_TIMEOUT : Z;
  GREATFET_LOGIC_MAX_DATA_OUT : nat;
  GREATFET_TRANSFER_POOL_SIZE : nat;
}.

(** One choice of values, for running the functions on examples. *)
Definition example_protocol_h : protocol_h :=
  {| GREATFET_LIBGREAT_REQUEST_NUMBER := 101;
     GREATFET_LIBGREAT_VALUE_EXECUTE := 0;
     GREATFET_LIBGREAT_FLAG_SKIP_RESPONSE := 1;
     GREATFET_CLASS_LA := 269;
     GREATFET_LA_VERB_CONFIGURE := 0;
     GREATFET_LOGIC_DEFAULT_TIMEOUT := 1000;
     GREATFET_LOGIC_MAX_DATA_OUT := 16;
     GREATFET_TRANSFER_POOL_SIZE := 4 |}.

(** ** Device data *)

Record libgreat_command_packet : Type := {
  class_number : Z;
  verb_number : Z;
  payload : list byte;
  payload_length : Z;
}.

Record libgreat_configure_command_response : Type := {
  sample_rate_achieved_hz : Z;
  buffer_size : Z;
  endpoint_ : Z;
}.

(** The fields of [struct greatfet_context] the functions use. *)
Record greatfet_context : Type := {
  sample_rate : Z;
  num_channels : Z;
  la_endpoint : Z;
  endpoint : Z;
  transfers : list (option transfer_id);
  capture_buffer : list byte;
}.

Record sr_usb_dev_inst : Type := { devhdl : option handle }.

Record sr_dev_inst : Type := {
  conn : sr_usb_dev_inst;
  priv : greatfet_context;
}.

(** The packed struct as the bytes [(unsigned char * )command] sees. *)
Definition packet_bytes (command : libgreat_command_packet) : list byte :=
  le32 (class_number command) ++ le32 (verb_number command)
    ++ payload command ++ le32 (payload_length command).

(** [memcpy(&response, response_buffer, sizeof response)]: the
    unpacked struct has its fields at offsets 0, 4 and 8. *)
Definition decode_configure_response (response_buffer : list byte)
  : libgreat_configure_command_response :=
  {| sample_rate_achieved_hz := read_le32 0 response_buffer;
     buffer_size := read_le32 4 response_buffer;
     endpoint_ := read_u8 8 response_buffer |}.

Definition sizeof_configure_response : nat := 12.
Definition sizeof_configure_payload : nat := 5.

Section Driver.
Context {P : protocol_h}.

(** ** The command executor *)

Record exec_result : Type := {
  ex_outcome : outcome Z;
  (** the block [response_buffer] points to, after the call *)
  ex_response : option (list byte);
  ex_calls : list call;
}.

(** The [flags] passed as [wIndex] of the outbound transfer. *)
Definition command_flags (response_max_length : Z) : Z :=
  let flags := 0 in
  if response_max_length =? 0
  then u16 (Z.lor flags GREATFET_LIBGREAT_FLAG_SKIP_RESPONSE)
  else flags.

(** "Send the command to the device..." *)
Definition send_command (Eout : xfer_env) (device : sr_dev_inst)
  (command : libgreat_command_packet) (response_max_length : Z) (timeout : Z)
  : xfer_result :=
  let connection := conn device in
  let command_length := u16 (payload_length command + 2 * 4) in
  sync_async_control_transfer Eout (devhdl connection)
    (Z.lor (Z.lor LIBUSB_ENDPOINT_OUT LIBUSB_REQUEST_TYPE_VENDOR)
           LIBUSB_RECIPIENT_ENDPOINT)
    GREATFET_LIBGREAT_REQUEST_NUMBER
    GREATFET_LIBGREAT_VALUE_EXECUTE
    (command_flags response_max_length)
    (Some (packet_bytes command))
    command_length
    timeout.

(** "Read the response back from the device, and return either its
    length or an error code." *)
Definition read_response (Ein : xfer_env) (device : sr_dev_inst)
  (response_buffer : option (list byte)) (response_max_length : Z) (timeout : Z)
  : xfer_result :=
  let connection := conn device in
  sync_async_control_transfer Ein (devhdl connection)
    (Z.lor (Z.lor LIBUSB_ENDPOINT_IN LIBUSB_REQUEST_TYPE_VENDOR)
           LIBUSB_RECIPIENT_ENDPOINT)
    GREATFET_LIBGREAT_REQUEST_NUMBER
    GREATFET_LIBGREAT_VALUE_EXECUTE
    0
    response_buffer
    response_max_length
    timeout.

Definition greatfet_execute_libgreat_command (Eout Ein : xfer_env)
  (device : sr_dev_inst) (command : libgreat_command_packet)
  (response_buffer : option (list byte)) (response_max_length : Z)
  (timeout : Z) : exec_result :=
  let sent := send_command Eout device command response_max_length timeout in
  match xr_outcome sent with
  | Returned rc =>
    if rc <? 0 then
      {| ex_outcome := Returned rc; ex_response := response_buffer;
         ex_calls := xr_calls sent |}
    else if response_max_length =? 0 then
      {| ex_outcome := Returned 0; ex_response := response_buffer;
         ex_calls := xr_calls sent |}
    else
      let received :=
        read_response Ein device response_buffer response_max_length timeout in
      {| ex_outcome := xr_outcome received; ex_response := xr_data received;
         ex_calls := xr_calls sent ++ xr_calls received |}
  | Hangs =>
    {| ex_outcome := Hangs; ex_response := response_buffer;
       ex_calls := xr_calls sent |}
  | Faults =>
    {| ex_outcome := Faults; ex_response := response_buffer;
       ex_calls := xr_calls sent |}
  end.

(** ** The bulk-transfer pool *)

Record cancel_result : Type := {
  (** [None]: the local [rc] is returned without ever being assigned *)
  cancel_rc : option Z;
  (** the transfers [libusb_cancel_transfer] was called on, in order *)
  cancelled : list transfer_id;
}.

Definition cancel_slot (libusb_cancel_transfer : transfer_id -> Z)
  (context : greatfet_context) (acc : cancel_result) (i : nat) : cancel_result :=
  match transfers context !! i with
  | Some (Some t) =>
    {| cancel_rc := Some (libusb_cancel_transfer t);
       cancelled := cancelled acc ++ [t] |}
  | _ => acc
  end.

Definition greatfet_cancel_transfers (libusb_cancel_transfer : transfer_id -> Z)
  (device : sr_dev_inst) : cancel_result :=
  let context := priv device in
  foldl (cancel_slot libusb_cancel_transfer context)
        {| cancel_rc := None; cancelled := [] |}
        (seq 0 GREATFET_TRANSFER_POOL_SIZE).

Definition set_transfers (context : greatfet_context)
  (ts : list (option transfer_id)) : greatfet_context :=
  {| sample_rate := sample_rate context;
     num_channels := num_channels context;
     la_endpoint := la_endpoint context;
     endpoint := endpoint context;
     transfers := ts;
     capture_buffer := capture_buffer context |}.

Record free_result : Type := {
  free_rc : Z;
  free_context : greatfet_context;
  (** the transfers [libusb_free_transfer] was called on, in order *)
  freed : list transfer_id;
}.

Definition free_slot (acc : greatfet_context * list transfer_id) (i : nat)
  : greatfet_context * list transfer_id :=
  let '(context, log) := acc in
  match transfers context !! i with
  | Some (Some t) =>
    (set_transfers context (<[i := None]> (transfers context)), log ++ [t])
  | _ => acc
  end.

Definition greatfet_free_transfers (context : greatfet_context) : free_result :=
  let '(context', log) :=
    foldl free_slot (context, []) (seq 0 GREATFET_TRANSFER_POOL_SIZE) in
  {| free_rc := 0; free_context := context'; freed := log |}.

(** ** Configuration *)

Definition set_endpoints (context : greatfet_context) (ep : Z) : greatfet_context :=
  {| sample_rate := sample_rate context;
     num_channels := num_channels context;
     la_endpoint := ep;
     endpoint := ep;
     transfers := transfers context;
     capture_buffer := capture_buffer context |}.

(** The packet [greatfet_configure] builds: the initializer zeroes the
    payload array, [memcpy] then stores the packed five-byte payload. *)
Definition configure_packet (context : greatfet_context) : libgreat_command_packet :=
  let payload :=
    le32 (u32 (sample_rate context)) ++ [byte_of_Z (u8 (num_channels context))] in
  {| class_number := GREATFET_CLASS_LA;
     verb_number := GREATFET_LA_VERB_CONFIGURE;
     payload := store_at 0 payload (replicate GREATFET_LOGIC_MAX_DATA_OUT x00);
     payload_length := Z.of_nat sizeof_configure_payload |}.

(** The command round trip of [greatfet_configure]; [stack] gives the
    bytes the local [response_buffer] holds before it is written. *)
Definition configure_command (Eout Ein : xfer_env) (stack : nat -> byte)
  (device : sr_dev_inst) : exec_result :=
  let response_buffer := map stack (seq 0 sizeof_configure_response) in
  greatfet_execute_libgreat_command Eout Ein device
    (configure_packet (priv device))
    (Some response_buffer) (Z.of_nat sizeof_configure_response)
    GREATFET_LOGIC_DEFAULT_TIMEOUT.

Record configure_result : Type := {
  cfg_outcome : outcome Z;
  cfg_context : greatfet_context;
  cfg_calls : list call;
}.

Definition greatfet_configure (Eout Ein : xfer_env) (stack : nat -> byte)
  (device : sr_dev_inst) : configure_result :=
  let context := priv device in
  let r := configure_command Eout Ein stack device in
  match ex_outcome r with
  | Returned rc =>
    let response := decode_configure_response (default [] (ex_response r)) in
    let context1 := set_endpoints context (endpoint_ response) in
    {| cfg_outcome := Returned rc;
       cfg_context := context1;
       cfg_calls := ex_calls r ++ [Call_libusb_claim_interface 1] |}
  | Hangs =>
    {| cfg_outcome := Hangs; cfg_context := context; cfg_calls := ex_calls r |}
  | Faults =>
    {| cfg_outcome := Faults; cfg_context := context; cfg_calls := ex_calls r |}
  end.

End Driver.

(** ** The rest of the driver *)

(** errno.h, as on Linux. *)
Definition ENOMEM : Z := 12.
Definition EIO : Z := 5.

(** What the functions below take from protocol.h and libsigrok.h. *)
Class acquisition_h : Type := {
  GREATFET_CLASS_CORE : Z;
  GREATFET_CORE_VERB_READ_VERSION : Z;
  GREATFET_CORE_VERB_READ_SERIAL : Z;
  GREATFET_LOGIC_MAX_STRING_LENGTH : nat;
  GREATFET_LA_VERB_START : Z;
  GREATFET_LA_VERB_STOP : Z;
  GREATFET_TRANSFER_BUFFER_SIZE : nat;
  SR_OK : Z;
  SR_ERR_IO : Z;
}.

(** One choice of values, for running the functions on examples. *)
Definition example_acquisition_h : acquisition_h :=
  {| GREATFET_CLASS_CORE := 0;
     GREATFET_CORE_VERB_READ_VERSION := 1;
     GREATFET_CORE_VERB_READ_SERIAL := 3;
     GREATFET_LOGIC_MAX_STRING_LENGTH := 12;
     GREATFET_LA_VERB_START := 3;
     GREATFET_LA_VERB_STOP := 4;
     GREATFET_TRANSFER_BUFFER_SIZE := 512;
     SR_OK := 0;
     SR_ERR_IO := -11 |}.

(** The bytes of a C string: those before the first NUL. *)
Fixpoint c_string (l : list byte) : list byte :=
  match l with
  | [] => []
  | b :: l' => if Byte.eqb b x00 then [] else b :: c_string l'
  end.

Definition is_cancel (c : call) : bool :=
  match c with Call_libusb_cancel_transfer => true | _ => false end.

Definition is_alloc_transfer (c : call) : bool :=
  match c with Call_libusb_alloc_transfer => true | _ => false end.

Definition is_free_transfer (c : call) : bool :=
  match c with Call_libusb_free_transfer => true | _ => false end.

Definition is_malloc (c : call) : bool :=
  match c with Call_malloc _ => true | _ => false end.

Definition is_free (c : call) : bool :=
  match c with Call_free => true | _ => false end.

Definition is_claim (c : call) : bool :=
  match c with Call_libusb_claim_interface _ => true | _ => false end.

Section Acquisition.
Context {P : protocol_h} {Q : acquisition_h}.

(** *** Identity strings *)

Record string_result : Type := {
  (** [None] inside [Returned] is [NULL] *)
  str_outcome : outcome (option (list byte));
  str_calls : list call;
}.

(** The command round trip of [greatfet_read_core_string]; [stack]
    gives the bytes the local [value] holds before it is written. *)
Definition core_string_command (Eout Ein : xfer_env) (stack : nat -> byte)
  (device : sr_dev_inst) (verb_number : Z) : exec_result :=
  let value := map stack (seq 0 (GREATFET_LOGIC_MAX_STRING_LENGTH + 1)) in
  let packet :=
    {| class_number := GREATFET_CLASS_CORE;
       verb_number := verb_number;
       payload := replicate GREATFET_LOGIC_MAX_DATA_OUT x00;
       payload_length := 0 |} in
  greatfet_execute_libgreat_command Eout Ein device packet (Some value)
    (Z.of_nat GREATFET_LOGIC_MAX_STRING_LENGTH) GREATFET_LOGIC_DEFAULT_TIMEOUT.

(** Storing the terminator outside of [value] is a fault. *)
Definition greatfet_read_core_string (Eout Ein : xfer_env) (stack : nat -> byte)
  (device : sr_dev_inst) (verb_number : Z) : string_result :=
  let r := core_string_command Eout Ein stack device verb_number in
  match ex_outcome r with
  | Returned len =>
    if len <? 0 then
      {| str_outcome := Returned None; str_calls := ex_calls r |}
    else
      let value' := default [] (ex_response r) in
      if (Z.to_nat len <? length value')%nat then
        {| str_outcome := Returned (Some (c_string (<[Z.to_nat len := x00]> value')));
           str_calls := ex_calls r |}
      else
        {| str_outcome := Faults; str_calls := ex_calls r |}
  | Hangs => {| str_outcome := Hangs; str_calls := ex_calls r |}
  | Faults => {| str_outcome := Faults; str_calls := ex_calls r |}
  end.

Definition greatfet_get_version_number (Eout Ein : xfer_env) (stack : nat -> byte)
  (device : sr_dev_inst) : string_result :=
  greatfet_read_core_string Eout Ein stack device GREATFET_CORE_VERB_READ_VERSION.

Definition greatfet_get_serial_number (Eout Ein : xfer_env) (stack : nat -> byte)
  (device : sr_dev_inst) : string_result :=
  greatfet_read_core_string Eout Ein stack device GREATFET_CORE_VERB_READ_SERIAL.

(** *** Allocating and submitting the pool *)

Record allocate_result : Type := {
  alloc_rc : Z;
  alloc_context : greatfet_context;
}.

(** [alloc i] is what the call of [libusb_alloc_transfer] made for slot
    [i] returns. *)
Fixpoint allocate_loop (alloc : nat -> option transfer_id)
  (context : greatfet_context) (slots : list nat) : allocate_result :=
  match slots with
  | [] => {| alloc_rc := 0; alloc_context := context |}
  | i :: slots' =>
    let context1 := set_transfers context (<[i := alloc i]> (transfers context)) in
    match alloc i with
    | None => {| alloc_rc := ENOMEM; alloc_context := context1 |}
    | Some _ => allocate_loop alloc context1 slots'
    end
  end.

Definition greatfet_allocate_transfers (alloc : nat -> option transfer_id)
  (device : sr_dev_inst) : allocate_result :=
  let context := priv device in
  allocate_loop alloc context (seq 0 GREATFET_TRANSFER_POOL_SIZE).

(** What [libusb_fill_bulk_transfer] put in a transfer that is then
    submitted: the buffer is given by its offset in [context->buffer]. *)
Record bulk_submission : Type := {
  bulk_transfer : transfer_id;
  bulk_dev_handle : option handle;
  bulk_endpoint : Z;
  bulk_offset : nat;
  bulk_length : nat;
  bulk_callback : nat;
  bulk_timeout : Z;
}.

Record prepare_result : Type := {
  prep_outcome : outcome Z;
  (** the transfers [libusb_submit_transfer] was called on, in order *)
  prep_submitted : list bulk_submission;
}.

(** [libusb_fill_bulk_transfer] on the transfer [t] of slot [i]. *)
Definition fill_slot (device : sr_dev_inst) (callback : nat) (i : nat)
  (t : transfer_id) : bulk_submission :=
  let context := priv device in
  let connection := conn device in
  {| bulk_transfer := t;
     bulk_dev_handle := devhdl connection;
     bulk_endpoint := u8 (endpoint context);
     bulk_offset := (i * GREATFET_TRANSFER_BUFFER_SIZE)%nat;
     bulk_length := GREATFET_TRANSFER_BUFFER_SIZE;
     bulk_callback := callback;
     bulk_timeout := 0 |}.

(** [segment_null i] says whether [&context->buffer[i * SIZE]] is
    [NULL]; [submit t] is what [libusb_submit_transfer] returns for
    transfer [t].  Filling a transfer through a null slot is a fault. *)
Fixpoint prepare_loop (segment_null : nat -> bool) (submit : transfer_id -> Z)
  (device : sr_dev_inst) (callback : nat) (log : list bulk_submission)
  (slots : list nat) : prepare_result :=
  match slots with
  | [] => {| prep_outcome := Returned 0; prep_submitted := log |}
  | i :: slots' =>
    let context := priv device in
    match transfers context !! i with
    | Some (Some t) =>
      let filled := fill_slot device callback i t in
      if segment_null i then
        {| prep_outcome := Returned ENOMEM; prep_submitted := log |}
      else
        let log1 := log ++ [filled] in
        if submit t =? 0 then
          prepare_loop segment_null submit device callback log1 slots'
        else
          {| prep_outcome := Returned EIO; prep_submitted := log1 |}
    | _ => {| prep_outcome := Faults; prep_submitted := log |}
    end
  end.

Definition greatfet_prepare_transfers (segment_null : nat -> bool)
  (submit : transfer_id -> Z) (device : sr_dev_inst) (callback : nat)
  : prepare_result :=
  prepare_loop segment_null submit device callback []
    (seq 0 GREATFET_TRANSFER_POOL_SIZE).

(** *** Starting and stopping the acquisition *)

Inductive acquire_call : Type :=
| Acq_libusb_release_interface (interface_number : Z)
| Acq_call (c : call).

Record acquire_result : Type := {
  acq_outcome : outcome Z;
  acq_context : greatfet_context;
  acq_calls : list call;
}.

Definition with_context (device : sr_dev_inst) (context : greatfet_context)
  : sr_dev_inst :=
  {| conn := conn device; priv := context |}.

(** A command of the logic-analyzer class with no payload. *)
Definition la_packet (verb : Z) : libgreat_command_packet :=
  {| class_number := GREATFET_CLASS_LA;
     verb_number := verb;
     payload := replicate GREATFET_LOGIC_MAX_DATA_OUT x00;
     payload_length := 0 |}.

(** [Ecfg_out], [Ecfg_in] and [stack] are for the configuration,
    [Estart] for the start command; that command asks for no response,
    so its inbound environment is [Estart] again. *)
Definition greatfet_start_acquire (Ecfg_out Ecfg_in : xfer_env)
  (stack : nat -> byte) (Estart : xfer_env) (device : sr_dev_inst)
  : acquire_result :=
  let c := greatfet_configure Ecfg_out Ecfg_in stack device in
  match cfg_outcome c with
  | Returned rc =>
    if rc <? 0 then
      {| acq_outcome := Returned SR_ERR_IO; acq_context := cfg_context c;
         acq_calls := cfg_calls c |}
    else
      let r :=
        greatfet_execute_libgreat_command Estart Estart
          (with_context device (cfg_context c))
          (la_packet GREATFET_LA_VERB_START) None 0
          GREATFET_LOGIC_DEFAULT_TIMEOUT in
      let calls := cfg_calls c ++ ex_calls r in
      match ex_outcome r with
      | Returned rc' =>
        {| acq_outcome := Returned (if rc' <? 0 then SR_ERR_IO else SR_OK);
           acq_context := cfg_context c; acq_calls := calls |}
      | Hangs =>
        {| acq_outcome := Hangs; acq_context := cfg_context c; acq_calls := calls |}
      | Faults =>
        {| acq_outcome := Faults; acq_context := cfg_context c; acq_calls := calls |}
      end
  | Hangs =>
    {| acq_outcome := Hangs; acq_context := cfg_context c; acq_calls := cfg_calls c |}
  | Faults =>
    {| acq_outcome := Faults; acq_context := cfg_context c; acq_calls := cfg_calls c |}
  end.

Record stop_result : Type := {
  stop_outcome : outcome Z;
  stop_calls : list acquire_call;
}.

Definition greatfet_stop_acquire (Estop : xfer_env) (device : sr_dev_inst)
  : stop_result :=
  let released := [Acq_libusb_release_interface 1] in
  let r :=
    greatfet_execute_libgreat_command Estop Estop device
      (la_packet GREATFET_LA_VERB_STOP) None 0
      (u32 (GREATFET_LOGIC_DEFAULT_TIMEOUT * 1000)) in
  let calls := released ++ map Acq_call (ex_calls r) in
  match ex_outcome r with
  | Returned rc =>
    {| stop_outcome := Returned (if rc <? 0 then SR_ERR_IO else SR_OK);
       stop_calls := calls |}
  | Hangs => {| stop_outcome := Hangs; stop_calls := calls |}
  | Faults => {| stop_outcome := Faults; stop_calls := calls |}
  end.

End Acquisition.

(** ** Notions used in the statements *)

(** The transfers of the live slots of a pool, in slot order. *)
Definition live (ts : list (option transfer_id)) : list transfer_id :=
  omap id ts.


(** How many calls of [libusb_alloc_transfer], from slot [a] on and at
    most [m], return a transfer before the first that returns [NULL]. *)
Fixpoint allocated_before_failure (alloc : nat -> option transfer_id)
  (a m : nat) : nat :=
  match m with
  | O => O
  | S m' =>
    match alloc a with
    | None => O
    | Some _ => S (allocated_before_failure alloc (S a) m')
    end
  end.

(** Slot [i] holds a transfer, has a buffer segment, and libusb accepts
    its transfer. *)
Definition slot_ready {Q : acquisition_h} (segment_null : nat -> bool)
  (submit : transfer_id -> Z) (device : sr_dev_inst) (i : nat) : Prop :=
  exists t, transfers (priv device) !! i = Some (Some t)
            /\ segment_null i = false /\ submit t = 0.

(** The transfers of the given slots as [greatfet_prepare_transfers]
    fills them. *)
Definition submissions {Q : acquisition_h} (device : sr_dev_inst)
  (callback : nat) (slots : list nat) : list bulk_submission :=
  omap (fun i => match transfers (priv device) !! i with
                 | Some (Some t) => Some (fill_slot device callback i t)
                 | _ => None
                 end) slots.



(** ** Sample data *)

Definition sample_context : greatfet_context :=
  {| sample_rate := 25000000; num_channels := 8;
     la_endpoint := 0; endpoint := 0;
     transfers := [Some 11%nat; None; Some 13%nat; Some 14%nat];
     capture_buffer := [] |}.

Definition sample_device : sr_dev_inst :=
  {| conn := {| devhdl := Some 7%nat |}; priv := sample_context |}.

(** [libusb_cancel_transfer] failing on transfer 11 only. *)
Definition sample_cancel (t : transfer_id) : Z :=
  if (t =? 11)%nat then -5 else 0.

(** Rounds of the event loop: the transfer completes with [d] received;
    event processing fails; the device handle is found gone. *)
Definition pump_completes (d : list byte) : pump :=
  {| pump_rc := 0;
     pump_callback := Some {| c_status := LIBUSB_TRANSFER_COMPLETED; c_data := d |};
     pump_handle_gone := false |}.

Definition pump_io_error : pump :=
  {| pump_rc := LIBUSB_ERROR_IO; pump_callback := None; pump_handle_gone := false |}.

Definition pump_device_gone : pump :=
  {| pump_rc := 0; pump_callback := None; pump_handle_gone := true |}.

(** Allocations succeed, fresh memory holds [0xff] everywhere. *)
Definition sample_env (submit : Z) (pumps : list pump) : xfer_env :=
  {| env_alloc_transfer := true;
     env_malloc := Some (λ _, xff);
     env_submit := submit;
     env_pumps := pumps |}.

(** A vendor request to an endpoint, device-to-host and host-to-device. *)
Definition vendor_in : Z := 194.
Definition vendor_out : Z := 66.

(** An inbound transfer that fails: the submission is refused and event
    processing reports an error. *)
Definition failed_in_run : xfer_result :=
  sync_async_control_transfer (sample_env LIBUSB_ERROR_IO [pump_io_error])
    (Some 7%nat) vendor_in 101 0 0 (Some [x00; x00; x00; x00]) 4 1000.

(** The transfer of [failed_in_run] once its wait is over. *)
Definition failed_in_transfer : libusb_transfer :=
  wait_transfer
    (sync_transfer_wait_for_completion
       (libusb_fill_control_transfer 7%nat
          (setup_packet vendor_in 101 0 0 4 ++ replicate 5 xff))
       [pump_io_error]).




(** An outbound transfer of no data, as submitted, and the calls whose
    wait meets an event-processing error or finds the device gone. *)
Definition sample_transfer : libusb_transfer :=
  libusb_fill_control_transfer 7%nat
    (setup_packet vendor_out 101 0 1 0 ++ [xff]).

Definition event_error_run : xfer_result :=
  sync_async_control_transfer (sample_env 0 [pump_io_error])
    (Some 7%nat) vendor_out 101 0 1 (Some []) 0 1000.

Definition device_gone_run : xfer_result :=
  sync_async_control_transfer (sample_env 0 [pump_device_gone])
    (Some 7%nat) vendor_out 101 0 1 (Some []) 0 1000.

(** Reading a nine-byte reply into a twelve-byte buffer. *)
Definition sample_packet : libgreat_command_packet :=
  {| class_number := 0; verb_number := 1;
     payload := replicate 16 x00; payload_length := 0 |}.

Definition sample_reply : list byte :=
  [x32; x30; x32; x31; x2e; x31; x32; x2e; x31].

Definition read_string_run : exec_result :=
  @greatfet_execute_libgreat_command example_protocol_h
    (sample_env 0 [pump_completes []])
    (sample_env 0 [pump_completes sample_reply])
    sample_device sample_packet (Some (replicate 12 x00)) 12 1000.

(** The inbound transfer of [read_string_run] once its wait is over. *)
Definition read_string_transfer : libusb_transfer :=
  wait_transfer
    (sync_transfer_wait_for_completion
       (libusb_fill_control_transfer 7%nat
          (setup_packet vendor_in 101 0 0 12 ++ replicate 13 xff))
       [pump_completes sample_reply]).

(** A command sent with no response expected. *)
Definition no_response_run : exec_result :=
  @greatfet_execute_libgreat_command example_protocol_h
    (sample_env 0 [pump_completes []])
    (sample_env 0 [])
    sample_device sample_packet None 0 1000.





(** Configuring a device that answers with [reply]. *)
Definition configure_run (reply : list byte) : configure_result :=
  @greatfet_configure example_protocol_h
    (sample_env 0 [pump_completes []])
    (sample_env 0 [pump_completes reply])
    (λ _, x00) sample_device.

Definition reply_a : list byte := le32 24000000 ++ le32 16384 ++ [x82].
Definition reply_b : list byte := le32 48000000 ++ le32 8192 ++ [x81].

(** A device whose handle is null, and a stack holding [0x07]. *)
Definition closed_device : sr_dev_inst :=
  {| conn := {| devhdl := None |}; priv := sample_context |}.

Definition null_pool_device : sr_dev_inst :=
  {| conn := {| devhdl := Some 7%nat |};
     priv := set_transfers sample_context [None; None; None; None] |}.

(** More rounds of the event loop: one that is interrupted, one that
    times out with nothing done. *)
Definition pump_interrupted : pump :=
  {| pump_rc := LIBUSB_ERROR_INTERRUPTED; pump_callback := None;
     pump_handle_gone := false |}.


(** The allocator refuses the scratch buffer. *)
Definition no_memory_env : xfer_env :=
  {| env_alloc_transfer := true; env_malloc := None;
     env_submit := 0; env_pumps := [] |}.

(** An outbound transfer of three bytes. *)
Definition out_run : xfer_result :=
  sync_async_control_transfer (sample_env 0 [pump_completes []])
    (Some 7%nat) vendor_out 101 0 1 (Some [x01; x02; x03; x04]) 3 1000.

(** A command with three bytes of payload. *)
Definition payload_packet : libgreat_command_packet :=
  {| class_number := 269; verb_number := 2;
     payload := [x0a; x0b; x0c] ++ replicate 13 x00; payload_length := 3 |}.

(** Allocators of pool transfers: one that always succeeds, one that
    fails for slot 2. *)
Definition alloc_all (i : nat) : option transfer_id := Some (100 + i)%nat.

Definition alloc_fails_at_2 (i : nat) : option transfer_id :=
  if (i =? 2)%nat then None else Some (100 + i)%nat.

(** A device with every slot of the pool live. *)
Definition full_pool_device : sr_dev_inst :=
  {| conn := {| devhdl := Some 7%nat |};
     priv := set_transfers sample_context
               [Some 11%nat; Some 12%nat; Some 13%nat; Some 14%nat] |}.

(** libusb refusing transfer 13 only. *)
Definition submit_refuses_13 (t : transfer_id) : Z :=
  if (t =? 13)%nat then LIBUSB_ERROR_IO else 0.

(** * Properties *)

(** ** The bulk-transfer pool *)

Section Pool.
Context {P : protocol_h}.

Lemma live_snoc ts x : live (ts ++ [x]) = live ts ++ from_option (λ t, [t]) [] x.
Proof.
  unfold live. rewrite omap_app. destruct x; reflexivity.
Qed.

Lemma live_all_null ts : Forall (λ s, s = None) ts → live ts = [].
Proof.
  induction 1 as [|s ts Hs _ IH]; [reflexivity|].
  subst s. exact IH.
Qed.

Lemma set_transfers_same ctx : set_transfers ctx (transfers ctx) = ctx.
Proof. destruct ctx; reflexivity. Qed.

Lemma set_transfers_twice ctx ts ts' :
  set_transfers (set_transfers ctx ts) ts' = set_transfers ctx ts'.
Proof. reflexivity. Qed.

(** After the first [m] rounds of the cancel loop. *)
Lemma cancel_rounds (f : transfer_id → Z) (ctx : greatfet_context) (m : nat) :
  foldl (cancel_slot f ctx) {| cancel_rc := None; cancelled := [] |} (seq 0 m)
  = {| cancel_rc := f <$> last (live (take m (transfers ctx)));
       cancelled := live (take m (transfers ctx)) |}.
Proof.
  induction m as [|m IH]; [reflexivity|].
  rewrite seq_S, foldl_app, IH. cbn [foldl Nat.add].
  unfold cancel_slot; cbn [cancelled cancel_rc].
  destruct (transfers ctx !! m) as [slot|] eqn:Hm.
  - rewrite (take_S_r _ _ _ Hm), live_snoc.
    destruct slot as [t|]; cbn [from_option].
    + rewrite last_snoc. reflexivity.
    + rewrite app_nil_r. reflexivity.
  - apply lookup_ge_None_1 in Hm.
    rewrite !take_ge by lia. reflexivity.
Qed.

(** After the first [m] rounds of the free loop. *)
Lemma free_rounds (ctx : greatfet_context) (m : nat) :
  foldl free_slot (ctx, []) (seq 0 m)
  = (set_transfers ctx
       (replicate (m `min` length (transfers ctx)) None ++ drop m (transfers ctx)),
     live (take m (transfers ctx))).
Proof.
  induction m as [|m IH].
  - cbn. rewrite set_transfers_same. reflexivity.
  - rewrite seq_S, foldl_app, IH. cbn [foldl Nat.add].
    unfold free_slot. cbn [transfers set_transfers].
    set (ts := transfers ctx).
    assert (Hlook : (replicate (m `min` length ts) None ++ drop m ts) !! m = ts !! m).
    { destruct (decide (m < length ts)%nat) as [Hlt|Hge].
      - rewrite lookup_app_r by (rewrite length_replicate; lia).
        rewrite length_replicate, lookup_drop. f_equal. lia.
      - rewrite (drop_ge ts m) by lia. rewrite app_nil_r.
        rewrite (lookup_ge_None_2 ts) by lia.
        apply lookup_replicate_None. lia. }
    rewrite Hlook.
    destruct (ts !! m) as [slot|] eqn:Hm.
    + pose proof (lookup_lt_Some _ _ _ Hm) as Hlt.
      rewrite (take_S_r _ _ _ Hm), live_snoc.
      assert (Hclear :
        <[m:=None]> (replicate (m `min` length ts) None ++ drop m ts)
        = replicate (S m `min` length ts) None ++ drop (S m) ts).
      { replace (m `min` length ts)%nat with m by lia.
        replace (S m `min` length ts)%nat with (S m) by lia.
        rewrite insert_app_r_alt by (rewrite length_replicate; lia).
        rewrite length_replicate, Nat.sub_diag, (drop_S _ _ _ Hm). cbn [insert list_insert].
        rewrite replicate_S_end, <- app_assoc. reflexivity. }
      destruct slot as [t|]; cbn [from_option].
      * rewrite Hclear. reflexivity.
      * rewrite app_nil_r, <- Hclear.
        rewrite list_insert_id by exact Hlook. reflexivity.
    + apply lookup_ge_None_1 in Hm.
      rewrite !take_ge by lia. rewrite !drop_ge by lia.
      replace (S m `min` length ts)%nat with (m `min` length ts)%nat by lia.
      reflexivity.
Qed.

Lemma greatfet_free_transfers_eq (ctx : greatfet_context) :
  length (transfers ctx) = GREATFET_TRANSFER_POOL_SIZE →
  greatfet_free_transfers ctx
  = {| free_rc := 0;
       free_context := set_transfers ctx (replicate GREATFET_TRANSFER_POOL_SIZE None);
       freed := live (transfers ctx) |}.
Proof.
  intros Hlen. unfold greatfet_free_transfers.
  rewrite free_rounds, <- Hlen.
  rewrite Nat.min_id, drop_all, app_nil_r, firstn_all. reflexivity.
Qed.

(** C8: on every pool, [greatfet_cancel_transfers] calls
    [libusb_cancel_transfer] on exactly the transfers of the non-null
    slots, in slot order; what it returns is the result of the last of
    these calls (the unassigned [rc] when there was none); and on a pool
    of null slots it calls [libusb_cancel_transfer] on nothing. *)
Theorem cancel_transfers_live_slots_last_result
  (f : transfer_id → Z) (device : sr_dev_inst) :
  length (transfers (priv device)) = GREATFET_TRANSFER_POOL_SIZE →
  let r := greatfet_cancel_transfers f device in
  cancelled r = live (transfers (priv device))
  ∧ cancel_rc r = f <$> last (cancelled r)
  ∧ (Forall (λ s, s = None) (transfers (priv device)) →
     cancelled r = [] ∧ cancel_rc r = None).
Proof.
  intros Hlen r. subst r. unfold greatfet_cancel_transfers.
  rewrite cancel_rounds, <- Hlen, firstn_all. cbn [cancelled cancel_rc].
  split; [reflexivity|]. split; [reflexivity|].
  intros Hnull. rewrite (live_all_null _ Hnull). split; reflexivity.
Qed.

(** C9: on every pool, [greatfet_free_transfers] calls
    [libusb_free_transfer] once for each non-null slot, in slot order,
    leaves every slot null and the rest of the context as it was, and
    returns 0; called again on the result it frees nothing, changes
    nothing and returns 0. *)
Theorem free_transfers_idempotent (ctx : greatfet_context) :
  length (transfers ctx) = GREATFET_TRANSFER_POOL_SIZE →
  let r := greatfet_free_transfers ctx in
  freed r = live (transfers ctx)
  ∧ length (freed r) = length (filter (λ s, s ≠ None) (transfers ctx))
  ∧ free_context r = set_transfers ctx (replicate GREATFET_TRANSFER_POOL_SIZE None)
  ∧ free_rc r = 0
  ∧ greatfet_free_transfers (free_context r)
    = {| free_rc := 0; free_context := free_context r; freed := [] |}.
Proof.
  intros Hlen r. subst r.
  rewrite (greatfet_free_transfers_eq ctx Hlen). cbn [freed free_context free_rc].
  split; [reflexivity|]. split.
  { clear Hlen. unfold live. induction (transfers ctx) as [|[t|] ts IH].
    - reflexivity.
    - cbn [omap list_omap id]. rewrite filter_cons_True by discriminate.
      cbn [length]. f_equal. exact IH.
    - cbn [omap list_omap id]. rewrite filter_cons_False by (intros H; apply H; reflexivity).
      exact IH. }
  split; [reflexivity|]. split; [reflexivity|].
  rewrite greatfet_free_transfers_eq
    by (cbn [transfers set_transfers]; apply length_replicate).
  cbn [transfers set_transfers]. rewrite set_transfers_twice.
  f_equal. apply live_all_null, Forall_replicate. reflexivity.
Qed.

End Pool.

(** ** Bytes *)

Lemma Z_of_byte_of_Z (z : Z) : Z_of_byte (byte_of_Z z) = z mod 256.
Proof.
  unfold Z_of_byte, byte_of_Z.
  assert (Hz : 0 <= z mod 256 < 256) by (apply Z.mod_pos_bound; lia).
  destruct (Byte.of_N (Z.to_N (z mod 256))) as [b|] eqn:Hb; unfold default; cbn [from_option id].
  - apply Byte.to_of_N in Hb. rewrite Hb. lia.
  - apply Byte.of_N_None_iff in Hb. lia.
Qed.

Lemma Z_of_byte_range (b : byte) : 0 <= Z_of_byte b < 256.
Proof.
  unfold Z_of_byte. pose proof (Byte.to_N_bounded b). lia.
Qed.

Lemma u16_range (z : Z) : 0 <= u16 z < 65536.
Proof. unfold u16. apply Z.mod_pos_bound. lia. Qed.


(** ** The wait loop *)

Section Wait.


Lemma wait_loop_never_faults rc t calls pumps :
  wait_outcome (wait_loop rc t calls pumps) ≠ Faults.
Proof.
  revert rc t calls.
  induction pumps as [|p pumps IH]; intros rc t calls; cbn [wait_loop].
  - destruct (completed t); discriminate.
  - destruct (completed t); [discriminate|].
    destruct (pump_rc p <? 0); [|apply IH].
    destruct (pump_rc p =? LIBUSB_ERROR_INTERRUPTED); [apply IH|discriminate].
Qed.











End Wait.

(** ** The synchronous control transfer *)

Section ControlTransfer.


Lemma memcpy_write_fits (d src : list byte) (n : nat) :
  (n ≤ length d)%nat →
  memcpy_write (Some d) src n = Some (Some (take n src ++ drop n d)).
Proof.
  intros Hn. unfold memcpy_write. destruct n as [|n]; [reflexivity|].
  destruct (Nat.leb_spec (S n) (length d)); [reflexivity|lia].
Qed.

Lemma setup_packet_length rt bReq wValue wIndex w :
  length (setup_packet rt bReq wValue wIndex w) = 8%nat.
Proof. reflexivity. Qed.

(** The buffer a device-to-host transfer submits: the setup packet
    followed by what the fresh block held. *)
Lemma control_buffer_in fresh rt bReq wValue wIndex data w :
  Z.land rt LIBUSB_ENDPOINT_IN ≠ 0 → 0 <= w →
  control_buffer fresh rt bReq wValue wIndex data w
  = Some (setup_packet rt bReq wValue wIndex w
          ++ map fresh (seq 8 (S (Z.to_nat w)))).
Proof.
  intros Hin Hw. unfold control_buffer.
  change LIBUSB_ENDPOINT_IN with 128 in Hin. change LIBUSB_ENDPOINT_OUT with 0.
  destruct (Z.eqb_spec (Z.land rt 128) 0) as [H0|_]; [contradiction|].
  f_equal. unfold libusb_fill_control_setup, store_at.
  rewrite setup_packet_length. change (0 + 8)%nat with 8%nat.
  rewrite take_0. cbn [app]. f_equal.
  replace (Z.to_nat (LIBUSB_CONTROL_SETUP_SIZE + w + 1)) with (8 + S (Z.to_nat w))%nat
    by (unfold LIBUSB_CONTROL_SETUP_SIZE; lia).
  rewrite seq_app, map_app, drop_app_length'; [reflexivity|].
  rewrite length_map, length_seq. reflexivity.
Qed.





(** The call once its three early exits are behind it. *)
Lemma sync_async_submitted E h rt bReq wValue wIndex data wLength timeout fresh buf :
  env_alloc_transfer E = true →
  env_malloc E = Some fresh →
  control_buffer fresh (u8 rt) (u8 bReq) (u16 wValue) (u16 wIndex) data (u16 wLength)
    = Some buf →
  let w := sync_transfer_wait_for_completion
             (libusb_fill_control_transfer h buf) (env_pumps E) in
  let calls4 :=
    [Call_sync_async_control_transfer (u8 rt) (u8 bReq) (u16 wValue) (u16 wIndex)
       (u16 wLength);
     Call_libusb_alloc_transfer;
     Call_malloc (LIBUSB_CONTROL_SETUP_SIZE + u16 wLength + 1);
     Call_libusb_submit_transfer buf] ++ wait_calls w in
  sync_async_control_transfer E (Some h) rt bReq wValue wIndex data wLength timeout
  = match wait_outcome w with
    | Returned _ =>
      match (if negb (Z.land (u8 rt) LIBUSB_ENDPOINT_IN =? 0)
             then memcpy_write data (buffer (wait_transfer w)) (Z.to_nat (u16 wLength))
             else Some data) with
      | None => {| xr_outcome := Faults; xr_data := data; xr_calls := calls4 |}
      | Some data' =>
        {| xr_outcome := Returned (env_submit E); xr_data := data';
           xr_calls := calls4 ++ [Call_free; Call_libusb_free_transfer] |}
      end
    | Hangs => {| xr_outcome := Hangs; xr_data := data; xr_calls := calls4 |}
    | Faults => {| xr_outcome := Faults; xr_data := data; xr_calls := calls4 |}
    end.
Proof.
  intros Halloc Hmalloc Hbuf w calls4.
  unfold sync_async_control_transfer.
  rewrite Halloc, Hmalloc. cbn [negb]. rewrite Hbuf.
  reflexivity.
Qed.


Lemma u8_land_in (rt : Z) :
  Z.land (u8 rt) LIBUSB_ENDPOINT_IN ≠ 0 →
  (Z.land (u8 rt) LIBUSB_ENDPOINT_IN =? 0) = false.
Proof. intros H. apply Z.eqb_neq, H. Qed.


End ControlTransfer.

Section CopyBack.


(** C4, as the code has it: a device-to-host control transfer leaves the
    caller's buffer as it was only when it returns before anything is
    submitted (null device handle, no transfer object, no scratch buffer)
    or when the wait never ends.  Whenever the wait ends, whether or not
    the transfer completed and whatever [libusb_submit_transfer] and the
    event loop returned, the first [wLength] bytes of the caller's
    buffer are overwritten with the first [wLength] bytes of the
    transfer's buffer, and the call returns what
    [libusb_submit_transfer] returned. *)
Theorem in_transfer_copy_back_whatever_the_outcome
  (E : xfer_env) (dev : option handle)
  (rt bReq wValue wIndex wLength timeout : Z) (d : list byte) :
  Z.land (u8 rt) LIBUSB_ENDPOINT_IN ≠ 0 →
  (Z.to_nat (u16 wLength) ≤ length d)%nat →
  let n := Z.to_nat (u16 wLength) in
  let r := sync_async_control_transfer E dev rt bReq wValue wIndex
             (Some d) wLength timeout in
  (dev = None ∨ env_alloc_transfer E = false ∨ env_malloc E = None →
   xr_data r = Some d
   ∧ count_calls is_submit (xr_calls r) = 0%nat
   ∧ ∃ rc, xr_outcome r = Returned rc ∧ rc < 0)
  ∧ (∀ h fresh buf,
       dev = Some h → env_alloc_transfer E = true → env_malloc E = Some fresh →
       control_buffer fresh (u8 rt) (u8 bReq) (u16 wValue) (u16 wIndex)
         (Some d) (u16 wLength) = Some buf →
       let w := sync_transfer_wait_for_completion
                  (libusb_fill_control_transfer h buf) (env_pumps E) in
       match wait_outcome w with
       | Hangs => xr_outcome r = Hangs ∧ xr_data r = Some d
       | _ =>
         xr_outcome r = Returned (env_submit E)
         ∧ xr_data r = Some (take n (buffer (wait_transfer w)) ++ drop n d)
       end).
Proof.
  intros Hin Hfit n r. split.
  - intros Hearly. subst r. unfold sync_async_control_transfer.
    destruct dev as [h|].
    + destruct (env_alloc_transfer E) eqn:Halloc; cbn [negb].
      * destruct (env_malloc E) as [fresh|] eqn:Hmalloc.
        -- destruct Hearly as [?|[?|?]]; discriminate.
        -- cbn. split; [reflexivity|]. split; [reflexivity|].
           exists LIBUSB_ERROR_NO_MEM. split; [reflexivity|reflexivity].
      * cbn. split; [reflexivity|]. split; [reflexivity|].
        exists LIBUSB_ERROR_NO_MEM. split; reflexivity.
    + cbn. split; [reflexivity|]. split; [reflexivity|].
      exists LIBUSB_ERROR_INVALID_PARAM. split; reflexivity.
  - intros h fresh buf -> Halloc Hmalloc Hbuf w.
    pose proof (sync_async_submitted E h rt bReq wValue wIndex (Some d) wLength
                  timeout fresh buf Halloc Hmalloc Hbuf) as Heq.
    cbv zeta in Heq. fold r in Heq. fold w in Heq.
    rewrite (u8_land_in rt Hin) in Heq. cbn [negb] in Heq.
    rewrite (memcpy_write_fits d _ _ Hfit) in Heq. fold n in Heq.
    rewrite Heq.
    destruct (wait_outcome w) eqn:Hout; cbn [xr_outcome xr_data].
    + split; reflexivity.
    + split; reflexivity.
    + exfalso. exact (wait_loop_never_faults _ _ _ _ Hout).
Qed.

End CopyBack.

(** C4, counterexample: an inbound transfer whose submission is refused
    and whose wait is cut short by an event-processing error never
    completes, and the call returns the error; the caller's four zero
    bytes have nevertheless been replaced by the start of the setup
    packet. *)
Lemma failed_in_transfer_overwrites_buffer :
  xr_outcome failed_in_run = Returned LIBUSB_ERROR_IO
  ∧ completed failed_in_transfer = false
  ∧ actual_length failed_in_transfer = 0
  ∧ In Call_libusb_cancel_transfer (xr_calls failed_in_run)
  ∧ xr_data failed_in_run = Some [xc2; x65; x00; x00]
  ∧ xr_data failed_in_run ≠ Some [x00; x00; x00; x00].
Proof.
  vm_compute. split; [reflexivity|]. split; [reflexivity|].
  split; [reflexivity|]. split; [tauto|].
  split; [reflexivity|discriminate].
Qed.


(** C2, on the code: when event processing fails, the wait returns the
    error code, and when the device handle is found null the wait sets
    the status to "no device", sets the flag and ends; in both cases
    the synchronous transfer returns 0, the result of the submission. *)
Theorem wait_errors_are_dropped :
  wait_outcome (sync_transfer_wait_for_completion sample_transfer [pump_io_error])
    = Returned (Some LIBUSB_ERROR_IO)
  ∧ xr_outcome event_error_run = Returned 0
  ∧ wait_outcome (sync_transfer_wait_for_completion sample_transfer [pump_device_gone])
    = Returned (Some 0)
  ∧ status (wait_transfer
      (sync_transfer_wait_for_completion sample_transfer [pump_device_gone]))
    = LIBUSB_TRANSFER_NO_DEVICE
  ∧ completed (wait_transfer
      (sync_transfer_wait_for_completion sample_transfer [pump_device_gone]))
    = true
  ∧ xr_outcome device_gone_run = Returned 0
  ∧ In (Call_libusb_submit_transfer (buffer sample_transfer)) (xr_calls event_error_run)
  ∧ In (Call_libusb_submit_transfer (buffer sample_transfer)) (xr_calls device_gone_run).
Proof. vm_compute. repeat split; tauto. Qed.

(** ** The command executor *)

Section Executor.
Context {P : protocol_h}.

Lemma count_calls_app p a b :
  count_calls p (a ++ b) = (count_calls p a + count_calls p b)%nat.
Proof. unfold count_calls. rewrite List.filter_app, length_app. reflexivity. Qed.

(** The wait only ever calls the event loop and the cancellation. *)
Lemma wait_calls_count p rc t calls pumps :
  p Call_libusb_handle_events_completed = false →
  p Call_libusb_cancel_transfer = false →
  count_calls p (wait_calls (wait_loop rc t calls pumps)) = count_calls p calls.
Proof.
  intros Hev Hcancel. revert rc t calls.
  induction pumps as [|q pumps IH]; intros rc t calls; cbn [wait_loop].
  - destruct (completed t); reflexivity.
  - destruct (completed t); [reflexivity|].
    assert (Hstep : count_calls p (calls ++ [Call_libusb_handle_events_completed])
                    = count_calls p calls).
    { rewrite count_calls_app. unfold count_calls at 2. cbn [List.filter].
      rewrite Hev. cbn. lia. }
    destruct (pump_rc q <? 0).
    + destruct (pump_rc q =? LIBUSB_ERROR_INTERRUPTED).
      * rewrite IH. exact Hstep.
      * cbn [wait_calls]. rewrite count_calls_app, Hstep.
        unfold count_calls at 2. cbn [List.filter]. rewrite Hcancel. cbn. lia.
    + rewrite IH. exact Hstep.
Qed.

(** One call of the control transfer is one entry in the trace, with the
    arguments as converted to the parameter types, and at most one
    submission. *)
Lemma sync_async_calls E dev rt bReq wValue wIndex data wLength timeout :
  let r := sync_async_control_transfer E dev rt bReq wValue wIndex data
             wLength timeout in
  count_calls is_control_transfer (xr_calls r) = 1%nat
  ∧ (count_calls is_submit (xr_calls r) ≤ 1)%nat
  ∧ ∃ rest, xr_calls r
      = Call_sync_async_control_transfer (u8 rt) (u8 bReq) (u16 wValue)
          (u16 wIndex) (u16 wLength) :: rest.
Proof.
  intros r. subst r. unfold sync_async_control_transfer.
  destruct dev as [h|]; [|cbn; eauto].
  destruct (env_alloc_transfer E); cbn [negb]; [|cbn; eauto].
  destruct (env_malloc E) as [fresh|]; [|cbn; eauto].
  destruct (control_buffer _ _ _ _ _ _ _) as [buf|]; [|cbn; eauto].
  unfold sync_transfer_wait_for_completion.
  set (w := wait_loop None _ [] _).
  assert (H1 : count_calls is_control_transfer (wait_calls w) = 0%nat)
    by (subst w; rewrite wait_calls_count; reflexivity).
  assert (H2 : count_calls is_submit (wait_calls w) = 0%nat)
    by (subst w; rewrite wait_calls_count; reflexivity).
  destruct (wait_outcome w);
    [destruct (if negb _ then _ else _)|..];
    cbn [xr_calls]; rewrite ?count_calls_app, H1, H2;
    (split; [reflexivity|]); (split; [cbn; lia|]); cbn [app]; eauto.
Qed.

Lemma sync_async_return_values E dev rt bReq wValue wIndex data wLength timeout rc :
  xr_outcome (sync_async_control_transfer E dev rt bReq wValue wIndex data
                wLength timeout) = Returned rc →
  rc = LIBUSB_ERROR_INVALID_PARAM ∨ rc = LIBUSB_ERROR_NO_MEM ∨ rc = env_submit E.
Proof.
  unfold sync_async_control_transfer.
  destruct dev as [h|]; [|cbn; intros [= <-]; tauto].
  destruct (env_alloc_transfer E); cbn [negb]; [|cbn; intros [= <-]; tauto].
  destruct (env_malloc E) as [fresh|]; [|cbn; intros [= <-]; tauto].
  destruct (control_buffer _ _ _ _ _ _ _) as [buf|]; [|discriminate].
  destruct (wait_outcome _); [|discriminate..].
  destruct (if negb _ then _ else _); [|discriminate].
  cbn. intros [= <-]. tauto.
Qed.

Lemma command_flags_u16 rml : u16 (command_flags rml) = command_flags rml.
Proof.
  unfold command_flags. destruct (rml =? 0); [|reflexivity].
  unfold u16. apply Z.mod_mod. lia.
Qed.


(** What the executor returns after reading a response is fixed by the
    allocations and the submission; the rounds of the event loop, and
    with them the number of bytes received, have no part in it. *)
Lemma execute_result_is_submit_result
  (Eout Ein : xfer_env) (device : sr_dev_inst) (command : libgreat_command_packet)
  (response_buffer : option (list byte)) (response_max_length timeout : Z) (rc x : Z) :
  response_max_length ≠ 0 →
  xr_outcome (send_command Eout device command response_max_length timeout)
    = Returned rc →
  0 <= rc →
  ex_outcome (greatfet_execute_libgreat_command Eout Ein device command
                response_buffer response_max_length timeout) = Returned x →
  x = LIBUSB_ERROR_INVALID_PARAM ∨ x = LIBUSB_ERROR_NO_MEM ∨ x = env_submit Ein.
Proof.
  intros Hnz Hsent Hpos. unfold greatfet_execute_libgreat_command.
  rewrite Hsent.
  destruct (Z.ltb_spec rc 0) as [Hneg|_]; [lia|].
  destruct (Z.eqb_spec response_max_length 0) as [Hz|_]; [contradiction|].
  cbn [ex_outcome]. unfold read_response.
  apply sync_async_return_values.
Qed.

(** *** Submissions *)






(** The trace of the executor is that of its outbound call, followed by
    that of its inbound call when it makes one. *)
Lemma execute_command_trace
  (Eout Ein : xfer_env) (device : sr_dev_inst) (command : libgreat_command_packet)
  (response_buffer : option (list byte)) (response_max_length timeout : Z) :
  let r := greatfet_execute_libgreat_command Eout Ein device command
             response_buffer response_max_length timeout in
  let sent := send_command Eout device command response_max_length timeout in
  let received :=
    read_response Ein device response_buffer response_max_length timeout in
  (ex_calls r = xr_calls sent
   ∧ ¬ (response_max_length ≠ 0 ∧ ∃ rc, xr_outcome sent = Returned rc ∧ 0 <= rc))
  ∨ (ex_calls r = xr_calls sent ++ xr_calls received
     ∧ ex_outcome r = xr_outcome received
     ∧ ex_response r = xr_data received
     ∧ response_max_length ≠ 0
     ∧ ∃ rc, xr_outcome sent = Returned rc ∧ 0 <= rc).
Proof.
  intros r sent received. subst r. unfold greatfet_execute_libgreat_command.
  fold sent. fold received.
  destruct (xr_outcome sent) as [rc| |] eqn:Hout.
  - destruct (Z.ltb_spec rc 0) as [Hneg|Hpos].
    + left. split; [reflexivity|]. intros (_ & rc' & [= <-] & Hrc'). lia.
    + destruct (Z.eqb_spec response_max_length 0) as [Hz|Hnz].
      * left. split; [reflexivity|]. tauto.
      * right. cbn [ex_calls ex_outcome ex_response]. repeat (split; [reflexivity|]).
        split; [exact Hnz|]. exists rc. split; [reflexivity|exact Hpos].
  - left. split; [reflexivity|]. intros (_ & rc' & Hrc' & _). discriminate.
  - left. split; [reflexivity|]. intros (_ & rc' & Hrc' & _). discriminate.
Qed.



End Executor.


(** C1, on the code: the inbound transfer completes with nine bytes
    received from the device, and the executor returns 0, the result of
    the submission; the caller's twelve bytes are the start of the
    transfer's buffer. *)
Theorem execute_returns_submission_result :
  completed read_string_transfer = true
  ∧ status read_string_transfer = LIBUSB_TRANSFER_COMPLETED
  ∧ actual_length read_string_transfer = 9
  ∧ ex_outcome read_string_run = Returned 0
  ∧ ex_response read_string_run = Some (take 12 (buffer read_string_transfer)).
Proof. vm_compute. repeat split. Qed.

(** ** Configuration *)

Section Configure.
Context {P : protocol_h}.

Lemma configure_returned Eout Ein stack device rc :
  ex_outcome (configure_command Eout Ein stack device) = Returned rc →
  greatfet_configure Eout Ein stack device
  = {| cfg_outcome := Returned rc;
       cfg_context :=
         set_endpoints (priv device)
           (endpoint_ (decode_configure_response
              (default [] (ex_response (configure_command Eout Ein stack device)))));
       cfg_calls := ex_calls (configure_command Eout Ein stack device)
                    ++ [Call_libusb_claim_interface 1] |}.
Proof.
  intros H. unfold greatfet_configure. rewrite H. reflexivity.
Qed.

(** C3, as the code has it: when the configure command returns,
    [greatfet_configure] stores the endpoint field of the decoded
    response, the byte at offset 8 of the response buffer, in both
    [la_endpoint] and [endpoint] of the device context.  The decoded
    sample rate and buffer size are stored nowhere: [sample_rate],
    [num_channels], the transfer pool and the capture buffer are as
    before the call. *)
Theorem configure_records_endpoint_only
  (Eout Ein : xfer_env) (stack : nat → byte) (device : sr_dev_inst) (rc : Z) :
  ex_outcome (configure_command Eout Ein stack device) = Returned rc →
  let response :=
    decode_configure_response
      (default [] (ex_response (configure_command Eout Ein stack device))) in
  let context' := cfg_context (greatfet_configure Eout Ein stack device) in
  la_endpoint context' = endpoint_ response
  ∧ endpoint context' = endpoint_ response
  ∧ sample_rate context' = sample_rate (priv device)
  ∧ num_channels context' = num_channels (priv device)
  ∧ transfers context' = transfers (priv device)
  ∧ capture_buffer context' = capture_buffer (priv device).
Proof.
  intros H response context'. subst context'.
  rewrite (configure_returned _ _ _ _ _ H). cbn. repeat split.
Qed.

(** A failed outbound transfer leaves the response buffer as the stack
    had it. *)
Lemma configure_command_send_failed Eout Ein stack device rc :
  xr_outcome (send_command Eout device (configure_packet (priv device))
                (Z.of_nat sizeof_configure_response) GREATFET_LOGIC_DEFAULT_TIMEOUT)
    = Returned rc →
  rc < 0 →
  ex_outcome (configure_command Eout Ein stack device) = Returned rc
  ∧ ex_response (configure_command Eout Ein stack device)
    = Some (map stack (seq 0 sizeof_configure_response)).
Proof.
  intros Hsent Hneg. unfold configure_command, greatfet_execute_libgreat_command.
  rewrite Hsent.
  destruct (Z.ltb_spec rc 0) as [_|Hpos]; [|lia].
  split; reflexivity.
Qed.

(** C10: whatever the configure command returns, a negative result
    included, [greatfet_configure] returns that result after storing
    the byte at offset 8 of the response buffer in [la_endpoint] and
    [endpoint].  When the outbound transfer fails, that byte is what the
    stack held there, since nothing was written to the buffer; and
    there is a failing call that leaves the context different from what
    it was. *)
Theorem configure_overwrites_endpoints_on_every_result :
  (∀ (Eout Ein : xfer_env) (stack : nat → byte) (device : sr_dev_inst) (rc : Z),
     ex_outcome (configure_command Eout Ein stack device) = Returned rc →
     let buffer' := default [] (ex_response (configure_command Eout Ein stack device)) in
     let result := greatfet_configure Eout Ein stack device in
     cfg_outcome result = Returned rc
     ∧ la_endpoint (cfg_context result) = read_u8 8 buffer'
     ∧ endpoint (cfg_context result) = read_u8 8 buffer')
  ∧ (∀ (Eout Ein : xfer_env) (stack : nat → byte) (device : sr_dev_inst) (rc : Z),
       xr_outcome (send_command Eout device (configure_packet (priv device))
                     (Z.of_nat sizeof_configure_response)
                     GREATFET_LOGIC_DEFAULT_TIMEOUT) = Returned rc →
       rc < 0 →
       let result := greatfet_configure Eout Ein stack device in
       cfg_outcome result = Returned rc
       ∧ la_endpoint (cfg_context result) = Z_of_byte (stack 8%nat)
       ∧ endpoint (cfg_context result) = Z_of_byte (stack 8%nat))
  ∧ (∃ (Eout Ein : xfer_env) (stack : nat → byte) (device : sr_dev_inst) (rc : Z),
       rc < 0
       ∧ cfg_outcome (greatfet_configure Eout Ein stack device) = Returned rc
       ∧ cfg_context (greatfet_configure Eout Ein stack device) ≠ priv device).
Proof.
  split; [|split].
  - intros Eout Ein stack device rc H buffer' result. subst result.
    rewrite (configure_returned _ _ _ _ _ H). cbn. repeat split.
  - intros Eout Ein stack device rc Hsent Hneg result. subst result.
    destruct (configure_command_send_failed Eout Ein stack device rc Hsent Hneg)
      as [Hout Hbuf].
    rewrite (configure_returned _ _ _ _ _ Hout), Hbuf. cbn. repeat split.
  - exists (sample_env 0 []), (sample_env 0 []), (λ _, x07), closed_device,
           LIBUSB_ERROR_INVALID_PARAM.
    split; [reflexivity|]. split; [reflexivity|].
    intros Heq. apply (f_equal endpoint) in Heq. discriminate Heq.
Qed.

End Configure.

(** C3, counterexample: two devices answer the configure command with
    different sample rates, buffer sizes and endpoints; both calls
    return 0 and leave the same device context, which holds none of the
    values either device sent. *)
Lemma configure_drops_rate_and_buffer_size :
  decode_configure_response reply_a
    = {| sample_rate_achieved_hz := 24000000; buffer_size := 16384; endpoint_ := 130 |}
  ∧ decode_configure_response reply_b
    = {| sample_rate_achieved_hz := 48000000; buffer_size := 8192; endpoint_ := 129 |}
  ∧ cfg_outcome (configure_run reply_a) = Returned 0
  ∧ cfg_outcome (configure_run reply_b) = Returned 0
  ∧ cfg_context (configure_run reply_a) = cfg_context (configure_run reply_b)
  ∧ cfg_context (configure_run reply_a)
    = {| sample_rate := 25000000; num_channels := 8;
         la_endpoint := 0; endpoint := 0;
         transfers := [Some 11%nat; None; Some 13%nat; Some 14%nat];
         capture_buffer := [] |}
  ∧ ¬ (∃ recorded : greatfet_context → libgreat_configure_command_response,
         ∀ reply, recorded (cfg_context (configure_run reply))
                  = decode_configure_response reply).
Proof.
  assert (Hsame : cfg_context (configure_run reply_a) = cfg_context (configure_run reply_b))
    by (vm_compute; reflexivity).
  repeat split; try (vm_compute; reflexivity).
  intros [recorded Hrec].
  pose proof (Hrec reply_a) as Ha. pose proof (Hrec reply_b) as Hb.
  rewrite Hsame, Hb in Ha. vm_compute in Ha. discriminate Ha.
Qed.

(** ** The theorems on the sample data *)

(** The pool of [sample_device] has three live slots; cancelling them
    returns the result for the last one, 0, although the first
    cancellation failed. *)
Lemma cancel_transfers_sample :
  length (transfers (priv sample_device)) = @GREATFET_TRANSFER_POOL_SIZE example_protocol_h
  ∧ cancelled (@greatfet_cancel_transfers example_protocol_h sample_cancel sample_device)
    = [11; 13; 14]%nat
  ∧ cancel_rc (@greatfet_cancel_transfers example_protocol_h sample_cancel sample_device)
    = Some 0
  ∧ Forall (λ s, s = None) (transfers (priv null_pool_device))
  ∧ cancelled (@greatfet_cancel_transfers example_protocol_h sample_cancel null_pool_device)
    = [].
Proof.
  pose proof (@cancel_transfers_live_slots_last_result example_protocol_h
                sample_cancel sample_device eq_refl) as (H1 & H2 & _).
  pose proof (@cancel_transfers_live_slots_last_result example_protocol_h
                sample_cancel null_pool_device eq_refl) as (_ & _ & H3).
  assert (Hnull : Forall (λ s : option transfer_id, s = None)
                    (transfers (priv null_pool_device)))
    by (repeat constructor).
  split; [reflexivity|]. split; [rewrite H1; reflexivity|].
  split; [rewrite H2, H1; reflexivity|].
  split; [exact Hnull|exact (proj1 (H3 Hnull))].
Defined.

Lemma free_transfers_sample :
  length (transfers sample_context) = @GREATFET_TRANSFER_POOL_SIZE example_protocol_h
  ∧ freed (@greatfet_free_transfers example_protocol_h sample_context)
    = [11; 13; 14]%nat
  ∧ transfers (free_context (@greatfet_free_transfers example_protocol_h sample_context))
    = [None; None; None; None]
  ∧ freed (@greatfet_free_transfers example_protocol_h
             (free_context (@greatfet_free_transfers example_protocol_h sample_context)))
    = [].
Proof.
  pose proof (@free_transfers_idempotent example_protocol_h sample_context eq_refl)
    as (H1 & _ & H3 & _ & H5).
  split; [reflexivity|]. split; [rewrite H1; reflexivity|].
  split; [rewrite H3; reflexivity|].
  rewrite H5. reflexivity.
Defined.


(** The copy-back on a transfer that failed and on one that was never
    submitted. *)
Lemma copy_back_sample :
  Z.land (u8 vendor_in) LIBUSB_ENDPOINT_IN ≠ 0
  ∧ (Z.to_nat (u16 4) ≤ length [x00; x00; x00; x00])%nat
  ∧ xr_outcome failed_in_run = Returned LIBUSB_ERROR_IO
  ∧ xr_data failed_in_run = Some (take 4 (buffer failed_in_transfer))
  ∧ xr_data (sync_async_control_transfer (sample_env LIBUSB_ERROR_IO [pump_io_error])
               None vendor_in 101 0 0 (Some [x00; x00; x00; x00]) 4 1000)
    = Some [x00; x00; x00; x00].
Proof.
  assert (Hin : Z.land (u8 vendor_in) LIBUSB_ENDPOINT_IN ≠ 0)
    by (vm_compute; discriminate).
  assert (Hfit : (Z.to_nat (u16 4) ≤ length [x00; x00; x00; x00])%nat)
    by (vm_compute; lia).
  pose proof (in_transfer_copy_back_whatever_the_outcome
                (sample_env LIBUSB_ERROR_IO [pump_io_error]) (Some 7%nat)
                vendor_in 101 0 0 4 1000 [x00; x00; x00; x00] Hin Hfit) as (_ & H2).
  pose proof (in_transfer_copy_back_whatever_the_outcome
                (sample_env LIBUSB_ERROR_IO [pump_io_error]) None
                vendor_in 101 0 0 4 1000 [x00; x00; x00; x00] Hin Hfit) as (H1 & _).
  specialize (H2 7%nat (λ _, xff) (setup_packet vendor_in 101 0 0 4 ++ replicate 5 xff)
                eq_refl eq_refl eq_refl eq_refl).
  cbv zeta in H2.
  change (wait_outcome _) with (Returned (A := option Z) (Some LIBUSB_ERROR_IO)) in H2.
  cbv iota beta in H2. destruct H2 as (H2a & H2b).
  destruct (H1 (or_introl eq_refl)) as (H1a & _).
  split; [exact Hin|]. split; [exact Hfit|].
  split; [exact H2a|]. split; [|exact H1a].
  unfold failed_in_run. rewrite H2b. reflexivity.
Defined.



(** Configuring the sample device: the endpoint fields take the byte at
    offset 8 of the response buffer, the rest of the context stays. *)
Lemma configure_sample :
  ex_outcome (@configure_command example_protocol_h
                (sample_env 0 [pump_completes []])
                (sample_env 0 [pump_completes reply_a])
                (λ _, x00) sample_device) = Returned 0
  ∧ la_endpoint (cfg_context (configure_run reply_a)) = 0
  ∧ endpoint (cfg_context (configure_run reply_a)) = 0
  ∧ sample_rate (cfg_context (configure_run reply_a)) = 25000000.
Proof.
  assert (Hret : ex_outcome (@configure_command example_protocol_h
                   (sample_env 0 [pump_completes []])
                   (sample_env 0 [pump_completes reply_a])
                   (λ _, x00) sample_device) = Returned 0)
    by (vm_compute; reflexivity).
  pose proof (@configure_records_endpoint_only example_protocol_h _ _ _ _ _ Hret)
    as (H1 & H2 & H3 & _).
  split; [exact Hret|]. unfold configure_run.
  split; [rewrite H1; vm_compute; reflexivity|].
  split; [rewrite H2; vm_compute; reflexivity|].
  rewrite H3. reflexivity.
Defined.

(** Configuring a device whose handle is null: the command fails with
    the parameter error, and the endpoint fields take the byte the
    stack held at offset 8 of the response buffer. *)
Lemma configure_failure_sample :
  ex_outcome (@configure_command example_protocol_h
                (sample_env 0 []) (sample_env 0 []) (λ _, x07) closed_device)
    = Returned LIBUSB_ERROR_INVALID_PARAM
  ∧ cfg_outcome (@greatfet_configure example_protocol_h
                   (sample_env 0 []) (sample_env 0 []) (λ _, x07) closed_device)
    = Returned LIBUSB_ERROR_INVALID_PARAM
  ∧ la_endpoint (cfg_context (@greatfet_configure example_protocol_h
                   (sample_env 0 []) (sample_env 0 []) (λ _, x07) closed_device)) = 7
  ∧ endpoint (cfg_context (@greatfet_configure example_protocol_h
                   (sample_env 0 []) (sample_env 0 []) (λ _, x07) closed_device)) = 7
  ∧ endpoint (priv closed_device) = 0.
Proof.
  assert (Hret : ex_outcome (@configure_command example_protocol_h
                   (sample_env 0 []) (sample_env 0 []) (λ _, x07) closed_device)
                 = Returned LIBUSB_ERROR_INVALID_PARAM)
    by (vm_compute; reflexivity).
  destruct (@configure_overwrites_endpoints_on_every_result example_protocol_h)
    as (Hall & Hfail & _).
  destruct (Hall _ _ _ _ _ Hret) as (H1 & _ & _).
  destruct (Hfail (sample_env 0 []) (sample_env 0 []) (λ _, x07) closed_device
              LIBUSB_ERROR_INVALID_PARAM eq_refl eq_refl) as (_ & H2 & H3).
  split; [exact Hret|]. split; [exact H1|].
  split; [exact H2|]. split; [exact H3|].
  reflexivity.
Defined.

(** * Further properties of the driver *)

(** ** The wait loop *)

Section WaitMore.

Lemma wait_loop_calls_prefix rc t calls pumps :
  wait_calls (wait_loop rc t calls pumps)
  = calls ++ wait_calls (wait_loop rc t [] pumps).
Proof.
  revert rc t calls.
  induction pumps as [|p pumps IH]; intros rc t calls; cbn [wait_loop].
  - destruct (completed t); cbn; rewrite app_nil_r; reflexivity.
  - destruct (completed t); [cbn; rewrite app_nil_r; reflexivity|].
    destruct (pump_rc p <? 0).
    + destruct (pump_rc p =? LIBUSB_ERROR_INTERRUPTED).
      * rewrite IH, (IH _ _ ([] ++ _)). cbn [app]. rewrite <- app_assoc. reflexivity.
      * cbn [wait_calls app]. rewrite <- app_assoc. reflexivity.
    + rewrite IH, (IH _ _ ([] ++ _)). cbn [app]. rewrite <- app_assoc. reflexivity.
Qed.

(** While the flag is unset, what the wait does is fixed by the rounds
    to come. *)
Lemma wait_loop_running rc rc' t calls calls' pumps :
  completed t = false →
  wait_outcome (wait_loop rc t calls pumps)
    = wait_outcome (wait_loop rc' t calls' pumps)
  ∧ wait_transfer (wait_loop rc t calls pumps)
    = wait_transfer (wait_loop rc' t calls' pumps).
Proof.
  intros Hrun. destruct pumps as [|p pumps]; cbn [wait_loop]; rewrite Hrun.
  - split; reflexivity.
  - assert (Hrec : ∀ r u c c',
      wait_outcome (wait_loop r u c pumps) = wait_outcome (wait_loop r u c' pumps)
      ∧ wait_transfer (wait_loop r u c pumps) = wait_transfer (wait_loop r u c' pumps)).
    { clear. induction pumps as [|q pumps IH]; intros r u c c'; cbn [wait_loop].
      - destruct (completed u); split; reflexivity.
      - destruct (completed u); [split; reflexivity|].
        destruct (pump_rc q <? 0); [|apply IH].
        destruct (pump_rc q =? LIBUSB_ERROR_INTERRUPTED); [apply IH|split; reflexivity]. }
    destruct (pump_rc p <? 0); [|apply Hrec].
    destruct (pump_rc p =? LIBUSB_ERROR_INTERRUPTED); [apply Hrec|split; reflexivity].
Qed.

(** The wait retries after an interruption: rounds of the event loop
    that return [LIBUSB_ERROR_INTERRUPTED] and change nothing are passed
    over, each costing one more call of the event loop; the wait ends as
    it would have without them, and never cancels because of them. *)
Theorem wait_retries_after_interruption
  (t : libusb_transfer) (interrupted rest : list pump) :
  completed t = false →
  Forall (λ p, pump_rc p = LIBUSB_ERROR_INTERRUPTED
               ∧ pump_callback p = None ∧ pump_handle_gone p = false) interrupted →
  let w := sync_transfer_wait_for_completion t (interrupted ++ rest) in
  let w' := sync_transfer_wait_for_completion t rest in
  wait_outcome w = wait_outcome w'
  ∧ wait_transfer w = wait_transfer w'
  ∧ wait_calls w
    = replicate (length interrupted) Call_libusb_handle_events_completed
      ++ wait_calls w'.
Proof.
  intros Hrun Hint. unfold sync_transfer_wait_for_completion.
  assert (Hgen : ∀ rc calls,
    wait_loop rc t calls (interrupted ++ rest)
    = wait_loop (match interrupted with
                 | [] => rc
                 | _ => Some LIBUSB_ERROR_INTERRUPTED
                 end) t
        (calls ++ replicate (length interrupted) Call_libusb_handle_events_completed)
        rest).
  { induction Hint as [|p ps (Hrc & Hcb & Hgone) _ IH]; intros rc calls.
    - cbn. rewrite app_nil_r. reflexivity.
    - cbn [app wait_loop length replicate]. rewrite Hrun, Hrc. cbn.
      unfold libusb_handle_events_completed. rewrite Hcb, Hgone.
      rewrite IH. rewrite <- app_assoc. cbn [app].
      destruct ps; reflexivity. }
  cbv zeta. rewrite Hgen. cbn [app].
  destruct (wait_loop_running
              (match interrupted with
               | [] => None
               | _ => Some LIBUSB_ERROR_INTERRUPTED
               end) None t
              (replicate (length interrupted) Call_libusb_handle_events_completed)
              [] rest Hrun) as [H1 H2].
  split; [exact H1|]. split; [exact H2|].
  rewrite wait_loop_calls_prefix. f_equal.
  destruct rest as [|q rest]; cbn [wait_loop]; rewrite Hrun; reflexivity.
Qed.

Lemma count_calls_snoc p cs c :
  count_calls p (cs ++ [c]) = (count_calls p cs + if p c then 1 else 0)%nat.
Proof.
  unfold count_calls. rewrite List.filter_app, length_app. cbn [List.filter].
  destruct (p c); reflexivity.
Qed.

Lemma wait_loop_cancel rc0 t calls pumps :
  count_calls is_cancel calls = 0%nat →
  (∀ r, rc0 = Some r → ¬ (r < 0 ∧ r ≠ LIBUSB_ERROR_INTERRUPTED)) →
  let w := wait_loop rc0 t calls pumps in
  (∃ r, wait_outcome w = Returned (Some r)
        ∧ r < 0 ∧ r ≠ LIBUSB_ERROR_INTERRUPTED
        ∧ count_calls is_cancel (wait_calls w) = 1%nat
        ∧ last (wait_calls w) = Some Call_libusb_cancel_transfer)
  ∨ ((∀ r, wait_outcome w = Returned (Some r) →
           ¬ (r < 0 ∧ r ≠ LIBUSB_ERROR_INTERRUPTED))
     ∧ count_calls is_cancel (wait_calls w) = 0%nat).
Proof.
  revert rc0 t calls.
  induction pumps as [|p pumps IH]; intros rc0 t calls Hcalls Hrc0; cbn [wait_loop].
  - right. destruct (completed t); cbn.
    + split; [|exact Hcalls]. intros r [= ->]. apply Hrc0. reflexivity.
    + split; [|exact Hcalls]. intros r Hr. discriminate Hr.
  - destruct (completed t).
    { right. cbn. split; [|exact Hcalls]. intros r [= ->]. apply Hrc0. reflexivity. }
    assert (Hcalls1 : count_calls is_cancel
                        (calls ++ [Call_libusb_handle_events_completed]) = 0%nat)
      by (rewrite count_calls_snoc, Hcalls; reflexivity).
    destruct (Z.ltb_spec (pump_rc p) 0) as [Hneg|Hpos].
    + destruct (Z.eqb_spec (pump_rc p) LIBUSB_ERROR_INTERRUPTED) as [Hint|Hnint].
      * apply IH; [exact Hcalls1|]. intros r [= <-]. tauto.
      * left. exists (pump_rc p). cbn [wait_outcome wait_calls].
        split; [reflexivity|]. split; [exact Hneg|]. split; [exact Hnint|].
        split; [rewrite count_calls_snoc, Hcalls1; reflexivity|].
        apply last_snoc.
    + apply IH; [exact Hcalls1|]. intros r [= <-]. lia.
Qed.

(** The wait cancels the transfer at most once, as the last thing it
    does, and exactly when it returns an error of the event loop other
    than the interruption. *)
Theorem wait_cancels_exactly_on_error (t : libusb_transfer) (pumps : list pump) :
  let w := sync_transfer_wait_for_completion t pumps in
  (count_calls is_cancel (wait_calls w) ≤ 1)%nat
  ∧ (count_calls is_cancel (wait_calls w) = 1%nat
     ↔ ∃ rc, wait_outcome w = Returned (Some rc)
             ∧ rc < 0 ∧ rc ≠ LIBUSB_ERROR_INTERRUPTED)
  ∧ (count_calls is_cancel (wait_calls w) = 1%nat →
     last (wait_calls w) = Some Call_libusb_cancel_transfer).
Proof.
  cbv zeta. unfold sync_transfer_wait_for_completion.
  destruct (wait_loop_cancel None t [] pumps eq_refl) as
    [(r & Hout & Hneg & Hnint & Hcount & Hlast)|(Hben & Hcount)].
  { intros r Hr. discriminate Hr. }
  - rewrite Hcount. split; [lia|]. split; [|intros _; exact Hlast].
    split; [intros _; eauto|reflexivity].
  - rewrite Hcount. split; [lia|]. split; [|discriminate].
    split; [discriminate|].
    intros (rc & Hout & Hneg & Hnint). exfalso. exact (Hben rc Hout (conj Hneg Hnint)).
Qed.

Lemma wait_loop_return_state rc0 t calls pumps rc :
  (∀ r, rc0 = Some r → 0 <= r → dev_handle t = None →
        status t = LIBUSB_TRANSFER_NO_DEVICE) →
  let w := wait_loop rc0 t calls pumps in
  wait_outcome w = Returned (Some rc) →
  ((rc < 0 ∧ rc ≠ LIBUSB_ERROR_INTERRUPTED) ∨ completed (wait_transfer w) = true)
  ∧ (0 <= rc → dev_handle (wait_transfer w) = None →
     status (wait_transfer w) = LIBUSB_TRANSFER_NO_DEVICE).
Proof.
  revert rc0 t calls.
  induction pumps as [|p pumps IH]; intros rc0 t calls Hinv; cbn [wait_loop].
  - destruct (completed t) eqn:Hdone; cbn; [|discriminate].
    intros [= ->]. split; [right; exact Hdone|]. apply Hinv. reflexivity.
  - destruct (completed t) eqn:Hdone.
    { cbn. intros [= ->]. split; [right; exact Hdone|]. apply Hinv. reflexivity. }
    destruct (Z.ltb_spec (pump_rc p) 0) as [Hneg|Hpos].
    + destruct (Z.eqb_spec (pump_rc p) LIBUSB_ERROR_INTERRUPTED) as [Hint|Hnint].
      * apply IH. intros r [= <-]. lia.
      * cbn. intros [= <-]. split; [left; tauto|lia].
    + apply IH. intros r [= <-] _.
      destruct (dev_handle (libusb_handle_events_completed p t)) eqn:Hh.
      * intros Hnull. rewrite Hh in Hnull. discriminate Hnull.
      * intros _. reflexivity.
Qed.

(** How the wait leaves the transfer: when it returns anything but a
    genuine error the completion flag is set, and when it returns a
    successful round's result with the device handle null the status is
    "no device". *)
Theorem wait_sets_flag_and_no_device
  (t : libusb_transfer) (pumps : list pump) (rc : Z) :
  let w := sync_transfer_wait_for_completion t pumps in
  wait_outcome w = Returned (Some rc) →
  ((rc < 0 ∧ rc ≠ LIBUSB_ERROR_INTERRUPTED) ∨ completed (wait_transfer w) = true)
  ∧ (0 <= rc → dev_handle (wait_transfer w) = None →
     status (wait_transfer w) = LIBUSB_TRANSFER_NO_DEVICE
     ∧ completed (wait_transfer w) = true).
Proof.
  cbv zeta. unfold sync_transfer_wait_for_completion. intros Hout.
  assert (Hinv : ∀ r : Z, @None Z = Some r → 0 <= r → dev_handle t = None →
                          status t = LIBUSB_TRANSFER_NO_DEVICE)
    by (intros r Hr; discriminate Hr).
  destruct (wait_loop_return_state None t [] pumps rc Hinv Hout) as [H1 H2].
  split; [exact H1|]. intros Hpos Hnull. split; [exact (H2 Hpos Hnull)|].
  destruct H1 as [[Hneg _]|Hdone]; [lia|exact Hdone].
Qed.


End WaitMore.

(** ** The synchronous control transfer *)

Section ControlTransferMore.

Lemma fill_setup_fresh fresh rt bReq wValue wIndex w :
  0 <= w →
  libusb_fill_control_setup
    (map fresh (seq 0 (Z.to_nat (LIBUSB_CONTROL_SETUP_SIZE + w + 1))))
    rt bReq wValue wIndex w
  = setup_packet rt bReq wValue wIndex w ++ map fresh (seq 8 (S (Z.to_nat w))).
Proof.
  intros Hw. unfold libusb_fill_control_setup, store_at.
  rewrite setup_packet_length. change (0 + 8)%nat with 8%nat.
  rewrite take_0. cbn [app]. f_equal.
  replace (Z.to_nat (LIBUSB_CONTROL_SETUP_SIZE + w + 1)) with (8 + S (Z.to_nat w))%nat
    by (unfold LIBUSB_CONTROL_SETUP_SIZE; lia).
  rewrite seq_app, map_app, drop_app_length'; [reflexivity|].
  rewrite length_map, length_seq. reflexivity.
Qed.

Lemma memcpy_read_fits (d : list byte) (n : nat) :
  (n ≤ length d)%nat → memcpy_read (Some d) n = Some (take n d).
Proof.
  intros Hn. unfold memcpy_read. destruct n as [|n]; [reflexivity|].
  destruct (Nat.leb_spec (S n) (length d)); [reflexivity|lia].
Qed.

(** The buffer a host-to-device transfer submits. *)
Lemma control_buffer_out fresh rt bReq wValue wIndex (d : list byte) w :
  Z.land rt 128 = 0 → 0 <= w → (Z.to_nat w ≤ length d)%nat →
  control_buffer fresh rt bReq wValue wIndex (Some d) w
  = Some (setup_packet rt bReq wValue wIndex w
          ++ take (Z.to_nat w) d ++ [fresh (8 + Z.to_nat w)%nat]).
Proof.
  intros Hout Hw Hfit. unfold control_buffer.
  rewrite (fill_setup_fresh _ _ _ _ _ _ Hw), Hout. change (0 =? LIBUSB_ENDPOINT_OUT) with true.
  cbv iota. rewrite (memcpy_read_fits _ _ Hfit). f_equal.
  unfold store_at. change (Z.to_nat LIBUSB_CONTROL_SETUP_SIZE) with 8%nat.
  rewrite take_app_length' by reflexivity.
  rewrite length_take, Nat.min_l by exact Hfit.
  f_equal. f_equal.
  rewrite drop_app_ge by (rewrite setup_packet_length; lia).
  rewrite setup_packet_length.
  replace (8 + Z.to_nat w - 8)%nat with (Z.to_nat w) by lia.
  replace (S (Z.to_nat w)) with (Z.to_nat w + 1)%nat by lia.
  rewrite seq_app, map_app, drop_app_length'; [reflexivity|].
  rewrite length_map, length_seq. reflexivity.
Qed.

(** A host-to-device control transfer never writes to the caller's
    data, however it ends. *)
Theorem out_transfer_leaves_data
  (E : xfer_env) (dev : option handle)
  (rt bReq wValue wIndex wLength timeout : Z) (data : option (list byte)) :
  Z.land (u8 rt) LIBUSB_ENDPOINT_IN = 0 →
  xr_data (sync_async_control_transfer E dev rt bReq wValue wIndex data
             wLength timeout) = data.
Proof.
  intros Hout. unfold sync_async_control_transfer.
  destruct dev as [h|]; [|reflexivity].
  destruct (env_alloc_transfer E); cbn [negb]; [|reflexivity].
  destruct (env_malloc E) as [fresh|]; [|reflexivity].
  destruct (control_buffer _ _ _ _ _ _ _) as [buf|]; [|reflexivity].
  rewrite Hout. cbn [Z.eqb negb].
  destruct (wait_outcome _); reflexivity.
Qed.

Lemma out_transfer_calls
  (E : xfer_env) (h : handle) (rt bReq wValue wIndex wLength timeout : Z)
  (d : list byte) (fresh : nat → byte) :
  Z.land (u8 rt) LIBUSB_ENDPOINT_IN = 0 →
  env_alloc_transfer E = true →
  env_malloc E = Some fresh →
  (Z.to_nat (u16 wLength) ≤ length d)%nat →
  let n := Z.to_nat (u16 wLength) in
  let r := sync_async_control_transfer E (Some h) rt bReq wValue wIndex
             (Some d) wLength timeout in
  (∃ rest,
     xr_calls r
     = [Call_sync_async_control_transfer (u8 rt) (u8 bReq) (u16 wValue)
          (u16 wIndex) (u16 wLength);
        Call_libusb_alloc_transfer;
        Call_malloc (LIBUSB_CONTROL_SETUP_SIZE + u16 wLength + 1);
        Call_libusb_submit_transfer
          (setup_packet (u8 rt) (u8 bReq) (u16 wValue) (u16 wIndex) (u16 wLength)
           ++ take n d ++ [fresh (8 + n)%nat])]
       ++ rest)
  ∧ count_calls is_submit (xr_calls r) = 1%nat
  ∧ xr_outcome r ≠ Faults.
Proof.
  intros Hout Halloc Hmalloc Hfit n r.
  pose proof (u16_range wLength) as Hw.
  pose proof (control_buffer_out fresh (u8 rt) (u8 bReq) (u16 wValue) (u16 wIndex)
                d (u16 wLength) Hout (proj1 Hw) Hfit) as Hbuf.
  fold n in Hbuf.
  pose proof (sync_async_submitted E h rt bReq wValue wIndex (Some d) wLength
                timeout fresh _ Halloc Hmalloc Hbuf) as Heq.
  cbv zeta in Heq. fold r in Heq. rewrite Hout in Heq. cbn [Z.eqb negb] in Heq.
  set (w := sync_transfer_wait_for_completion _ _) in Heq.
  assert (Hws : count_calls is_submit (wait_calls w) = 0%nat)
    by (subst w; unfold sync_transfer_wait_for_completion;
        rewrite wait_calls_count; reflexivity).
  rewrite Heq.
  destruct (wait_outcome w) eqn:Hwo; cbn [xr_calls xr_outcome].
  - split; [eexists; rewrite <- app_assoc; reflexivity|].
    split; [|discriminate].
    rewrite !count_calls_app, Hws. reflexivity.
  - split; [eexists; reflexivity|].
    split; [|discriminate].
    rewrite !count_calls_app, Hws. reflexivity.
  - exfalso. exact (wait_loop_never_faults _ _ _ _ Hwo).
Qed.




Lemma nothing_released (cs : list call) (o : outcome Z) :
  count_calls is_free_transfer cs = 0%nat → count_calls is_free cs = 0%nat →
  (count_calls is_submit cs = 0%nat ∨ ∀ rc, o ≠ Returned rc) →
  count_calls is_free_transfer cs = count_calls is_free cs
  ∧ (count_calls is_free_transfer cs ≤ 1)%nat
  ∧ (count_calls is_free_transfer cs = 1%nat
     ↔ count_calls is_submit cs = 1%nat ∧ ∃ rc, o = Returned rc).
Proof.
  intros Ha Hb Hc. rewrite Ha, Hb. split; [reflexivity|]. split; [lia|].
  split; [discriminate|]. intros [Hs [rc Hrc]].
  destruct Hc as [Hc|Hc]; [rewrite Hc in Hs; discriminate Hs|].
  exfalso. exact (Hc rc Hrc).
Qed.

Ltac no_release H1 H2 :=
  cbn [xr_calls xr_outcome];
  match goal with
  | |- count_calls is_free_transfer ?cs = _ ∧ _ ∧ (_ ↔ _ ∧ ∃ rc, ?o = Returned rc) ∧ _ =>
    destruct (nothing_released cs o) as (A & B & C);
    [ rewrite ?count_calls_app, ?H1; reflexivity
    | rewrite ?count_calls_app, ?H2; reflexivity
    | first [left; reflexivity | right; discriminate]
    | split; [exact A|]; split; [exact B|]; split; [exact C|] ]
  end.

(** What a control transfer releases.  It frees the scratch buffer and
    the transfer together, once, exactly when it returns after having
    submitted the transfer; a call that hangs or faults frees nothing.
    When the transfer is allocated and [malloc] then fails, the call
    returns [LIBUSB_ERROR_NO_MEM] without freeing the transfer. *)
Theorem control_transfer_releases
  (E : xfer_env) (dev : option handle)
  (rt bReq wValue wIndex wLength timeout : Z) (data : option (list byte)) :
  let r := sync_async_control_transfer E dev rt bReq wValue wIndex data
             wLength timeout in
  count_calls is_free_transfer (xr_calls r) = count_calls is_free (xr_calls r)
  ∧ (count_calls is_free_transfer (xr_calls r) ≤ 1)%nat
  ∧ (count_calls is_free_transfer (xr_calls r) = 1%nat
     ↔ count_calls is_submit (xr_calls r) = 1%nat
       ∧ ∃ rc, xr_outcome r = Returned rc)
  ∧ (dev ≠ None → env_alloc_transfer E = true → env_malloc E = None →
     xr_outcome r = Returned LIBUSB_ERROR_NO_MEM
     ∧ count_calls is_alloc_transfer (xr_calls r) = 1%nat
     ∧ count_calls is_free_transfer (xr_calls r) = 0%nat).
Proof.
  cbv zeta. unfold sync_async_control_transfer.
  destruct dev as [h|].
  2:{ no_release False False. intros H. exfalso. apply H. reflexivity. }
  destruct (env_alloc_transfer E) eqn:Halloc; cbn [negb].
  2:{ no_release False False. intros _ H. discriminate H. }
  destruct (env_malloc E) as [fresh|] eqn:Hmalloc.
  2:{ no_release False False. intros _ _ _. repeat split. }
  destruct (control_buffer _ _ _ _ _ _ _) as [buf|].
  2:{ no_release False False. intros _ _ H. discriminate H. }
  unfold sync_transfer_wait_for_completion.
  set (w := wait_loop None _ [] _).
  assert (H1 : count_calls is_free_transfer (wait_calls w) = 0%nat)
    by (subst w; rewrite wait_calls_count; reflexivity).
  assert (H2 : count_calls is_free (wait_calls w) = 0%nat)
    by (subst w; rewrite wait_calls_count; reflexivity).
  assert (H3 : count_calls is_submit (wait_calls w) = 0%nat)
    by (subst w; rewrite wait_calls_count; reflexivity).
  destruct (wait_outcome w);
    [destruct (if negb _ then _ else _)|..].
  - cbn [xr_calls xr_outcome]. rewrite !count_calls_app, H1, H2, H3.
    split; [reflexivity|]. split; [cbn; lia|].
    split; [split; [intros _; split; [reflexivity|eauto]|reflexivity]|].
    intros _ _ H. discriminate H.
  - no_release H1 H2. intros _ _ H. discriminate H.
  - no_release H1 H2. intros _ _ H. discriminate H.
  - no_release H1 H2. intros _ _ H. discriminate H.
Qed.

End ControlTransferMore.

(** ** The command executor *)

Section ExecutorMore.
Context {P : protocol_h}.

Lemma le32_decode (z : Z) :
  Z_of_byte (byte_of_Z z)
  + Z.shiftl (Z_of_byte (byte_of_Z (Z.shiftr z 8))) 8
  + Z.shiftl (Z_of_byte (byte_of_Z (Z.shiftr z 16))) 16
  + Z.shiftl (Z_of_byte (byte_of_Z (Z.shiftr z 24))) 24
  = u32 z.
Proof.
  rewrite !Z_of_byte_of_Z, !Z.shiftr_div_pow2, !Z.shiftl_mul_pow2 by lia.
  change (2 ^ 8) with 256. change (2 ^ 16) with 65536. change (2 ^ 24) with 16777216.
  unfold u32.
  pose proof (Z.div_mod z 256 ltac:(lia)) as H0.
  pose proof (Z.div_mod (z / 256) 256 ltac:(lia)) as H1.
  pose proof (Z.div_mod (z / 65536) 256 ltac:(lia)) as H2.
  pose proof (Z.div_mod (z / 16777216) 256 ltac:(lia)) as H3.
  rewrite Z.div_div in H1, H2, H3 by lia.
  change (256 * 256) with 65536 in H1. change (65536 * 256) with 16777216 in H2.
  change (16777216 * 256) with 4294967296 in H3.
  pose proof (Z.mod_pos_bound z 256 ltac:(lia)).
  pose proof (Z.mod_pos_bound (z / 256) 256 ltac:(lia)).
  pose proof (Z.mod_pos_bound (z / 65536) 256 ltac:(lia)).
  pose proof (Z.mod_pos_bound (z / 16777216) 256 ltac:(lia)).
  apply Z.mod_unique_pos with (q := z / 4294967296); lia.
Qed.

Lemma sync_async_wLength_u16 E dev rt bReq wValue wIndex data wLength timeout :
  sync_async_control_transfer E dev rt bReq wValue wIndex data wLength timeout
  = sync_async_control_transfer E dev rt bReq wValue wIndex data (u16 wLength) timeout.
Proof.
  unfold sync_async_control_transfer.
  replace (u16 (u16 wLength)) with (u16 wLength)
    by (unfold u16; rewrite Z.mod_mod by lia; reflexivity).
  reflexivity.
Qed.

Lemma sync_async_zero_length E dev rt bReq wValue wIndex data wLength timeout :
  u16 wLength = 0 →
  xr_data (sync_async_control_transfer E dev rt bReq wValue wIndex data
             wLength timeout) = data.
Proof.
  intros Hz. unfold sync_async_control_transfer. rewrite Hz.
  destruct dev as [h|]; [|reflexivity].
  destruct (env_alloc_transfer E); cbn [negb]; [|reflexivity].
  destruct (env_malloc E) as [fresh|]; [|reflexivity].
  destruct (control_buffer _ _ _ _ _ _ _) as [buf|]; [|reflexivity].
  destruct (wait_outcome _); [|reflexivity..].
  change (Z.to_nat 0) with 0%nat. cbn [memcpy_write].
  destruct (negb _); reflexivity.
Qed.

(** A call of the executor that makes one control transfer only, because
    no response is asked for or because the outbound transfer did not
    succeed, leaves the response buffer as it was, and what it does owes
    nothing to the environment of the inbound transfer. *)
Theorem execute_single_transfer_leaves_response
  (Eout Ein : xfer_env) (device : sr_dev_inst) (command : libgreat_command_packet)
  (response_buffer : option (list byte)) (response_max_length timeout : Z) :
  let r := greatfet_execute_libgreat_command Eout Ein device command
             response_buffer response_max_length timeout in
  count_calls is_control_transfer (ex_calls r) = 1%nat →
  ex_response r = response_buffer
  ∧ ∀ Ein', greatfet_execute_libgreat_command Eout Ein' device command
              response_buffer response_max_length timeout = r.
Proof.
  cbv zeta. unfold greatfet_execute_libgreat_command.
  set (sent := send_command Eout device command response_max_length timeout).
  destruct (xr_outcome sent) as [rc| |]; [|split; reflexivity..].
  destruct (rc <? 0); [split; reflexivity|].
  destruct (response_max_length =? 0); [split; reflexivity|].
  cbn [ex_calls]. intros Hone. exfalso.
  rewrite count_calls_app in Hone.
  pose proof (sync_async_calls Eout (devhdl (conn device))
                (Z.lor (Z.lor LIBUSB_ENDPOINT_OUT LIBUSB_REQUEST_TYPE_VENDOR)
                       LIBUSB_RECIPIENT_ENDPOINT)
                GREATFET_LIBGREAT_REQUEST_NUMBER GREATFET_LIBGREAT_VALUE_EXECUTE
                (command_flags response_max_length) (Some (packet_bytes command))
                (u16 (payload_length command + 2 * 4)) timeout) as (Hs & _).
  pose proof (sync_async_calls Ein (devhdl (conn device))
                (Z.lor (Z.lor LIBUSB_ENDPOINT_IN LIBUSB_REQUEST_TYPE_VENDOR)
                       LIBUSB_RECIPIENT_ENDPOINT)
                GREATFET_LIBGREAT_REQUEST_NUMBER GREATFET_LIBGREAT_VALUE_EXECUTE
                0 response_buffer response_max_length timeout) as (Hr & _).
  fold (send_command Eout device command response_max_length timeout) in Hs.
  fold sent in Hs.
  fold (read_response Ein device response_buffer response_max_length timeout) in Hr.
  rewrite Hs, Hr in Hone. discriminate Hone.
Qed.

(** A device-to-host transfer of length 0, as allocated and submitted:
    the setup packet and the one spare byte. *)
Lemma in_transfer_zero_length_calls
  E h rt bReq wValue wIndex data wLength timeout fresh :
  Z.land (u8 rt) LIBUSB_ENDPOINT_IN ≠ 0 →
  u16 wLength = 0 →
  env_alloc_transfer E = true →
  env_malloc E = Some fresh →
  ∃ rest,
    xr_calls (sync_async_control_transfer E (Some h) rt bReq wValue wIndex data
                wLength timeout)
    = [Call_sync_async_control_transfer (u8 rt) (u8 bReq) (u16 wValue) (u16 wIndex) 0;
       Call_libusb_alloc_transfer;
       Call_malloc 9;
       Call_libusb_submit_transfer
         (setup_packet (u8 rt) (u8 bReq) (u16 wValue) (u16 wIndex) 0
          ++ [fresh 8%nat])] ++ rest.
Proof.
  intros Hin Hz Halloc Hmalloc.
  pose proof (control_buffer_in fresh (u8 rt) (u8 bReq) (u16 wValue) (u16 wIndex)
                data (u16 wLength) Hin ltac:(rewrite Hz; lia)) as Hbuf.
  pose proof (sync_async_submitted E h rt bReq wValue wIndex data wLength
                timeout fresh _ Halloc Hmalloc Hbuf) as Heq.
  cbv zeta in Heq. rewrite Heq. clear Heq Hbuf. rewrite Hz, (u8_land_in rt Hin).
  change (Z.to_nat 0) with 0%nat. cbn [seq map memcpy_write negb].
  change (LIBUSB_CONTROL_SETUP_SIZE + 0 + 1) with 9.
  destruct (wait_outcome _); cbn [xr_calls].
  - eexists. rewrite <- app_assoc. reflexivity.
  - eexists. reflexivity.
  - eexists. reflexivity.
Qed.

(** The response length reaches the control transfer as a 16-bit
    value: two nonzero lengths that agree modulo 65536 give the same
    call, calls made included.  With a nonzero multiple of 65536 the
    inbound transfer is still made when the outbound call returned
    without an error, as the second of two control transfers and with
    [wLength] 0: a buffer of nine bytes is allocated and submitted with
    the setup packet of an inbound request of length 0; nothing is read
    into the response buffer, which is left as it was. *)
Theorem execute_truncates_response_length
  (Eout Ein : xfer_env) (device : sr_dev_inst) (command : libgreat_command_packet)
  (response_buffer : option (list byte)) (length1 length2 timeout : Z) :
  length1 ≠ 0 → length2 ≠ 0 → u16 length1 = u16 length2 →
  let r := greatfet_execute_libgreat_command Eout Ein device command
             response_buffer length1 timeout in
  let sent := send_command Eout device command length1 timeout in
  let inbound :=
    Call_sync_async_control_transfer vendor_in
      (u8 GREATFET_LIBGREAT_REQUEST_NUMBER) (u16 GREATFET_LIBGREAT_VALUE_EXECUTE)
      0 0 in
  r = greatfet_execute_libgreat_command Eout Ein device command response_buffer
        length2 timeout
  ∧ (u16 length1 = 0 → ex_response r = response_buffer)
  ∧ (u16 length1 = 0 →
     ∀ rc, xr_outcome sent = Returned rc → 0 <= rc →
       count_calls is_control_transfer (ex_calls r) = 2%nat
       ∧ (∃ rest, ex_calls r = xr_calls sent ++ inbound :: rest)
       ∧ (∀ h fresh,
            devhdl (conn device) = Some h →
            env_alloc_transfer Ein = true →
            env_malloc Ein = Some fresh →
            ∃ rest,
              ex_calls r
              = xr_calls sent
                ++ [inbound;
                    Call_libusb_alloc_transfer;
                    Call_malloc 9;
                    Call_libusb_submit_transfer
                      (setup_packet vendor_in
                         (u8 GREATFET_LIBGREAT_REQUEST_NUMBER)
                         (u16 GREATFET_LIBGREAT_VALUE_EXECUTE) 0 0
                       ++ [fresh 8%nat])]
                ++ rest)).
Proof.
  intros H1 H2 Heq r sent inbound.
  assert (Hgen : ∀ l, l ≠ 0 →
    greatfet_execute_libgreat_command Eout Ein device command response_buffer l timeout
    = greatfet_execute_libgreat_command Eout Ein device command response_buffer
        (if u16 l =? 0 then 65536 else u16 l) timeout).
  { intros l Hl. unfold greatfet_execute_libgreat_command, send_command, command_flags,
      read_response.
    destruct (Z.eqb_spec l 0) as [|_]; [contradiction|].
    assert (Hnz : (if u16 l =? 0 then 65536 else u16 l) ≠ 0)
      by (destruct (Z.eqb_spec (u16 l) 0); [discriminate|assumption]).
    destruct (Z.eqb_spec (if u16 l =? 0 then 65536 else u16 l) 0) as [|_];
      [contradiction|].
    rewrite (sync_async_wLength_u16 Ein _ _ _ _ _ _ l).
    rewrite (sync_async_wLength_u16 Ein _ _ _ _ _ _ (if u16 l =? 0 then 65536 else u16 l)).
    replace (u16 (if u16 l =? 0 then 65536 else u16 l)) with (u16 l); [reflexivity|].
    destruct (Z.eqb_spec (u16 l) 0) as [Hz|_].
    - rewrite Hz. reflexivity.
    - unfold u16. rewrite Z.mod_mod by lia. reflexivity. }
  split; [|split].
  - subst r. rewrite (Hgen length1 H1), (Hgen length2 H2), Heq. reflexivity.
  - intros Hz. subst r. unfold greatfet_execute_libgreat_command.
    destruct (xr_outcome (send_command _ _ _ _ _)); [|reflexivity..].
    destruct (_ <? 0); [reflexivity|].
    destruct (length1 =? 0); [reflexivity|].
    cbn [ex_response]. unfold read_response.
    apply sync_async_zero_length, Hz.
  - intros Hz rc Hrc Hpos.
    destruct (execute_command_trace Eout Ein device command response_buffer
                length1 timeout) as [(_ & Hno)|(Hc & _)].
    { exfalso. apply Hno. split; [exact H1|]. exists rc. split; assumption. }
    fold r in Hc. fold sent in Hc.
    pose proof (sync_async_calls Eout (devhdl (conn device))
                  (Z.lor (Z.lor LIBUSB_ENDPOINT_OUT LIBUSB_REQUEST_TYPE_VENDOR)
                         LIBUSB_RECIPIENT_ENDPOINT)
                  GREATFET_LIBGREAT_REQUEST_NUMBER GREATFET_LIBGREAT_VALUE_EXECUTE
                  (command_flags length1) (Some (packet_bytes command))
                  (u16 (payload_length command + 2 * 4)) timeout) as (Hs & _).
    fold (send_command Eout device command length1 timeout) in Hs. fold sent in Hs.
    destruct (sync_async_calls Ein (devhdl (conn device))
                (Z.lor (Z.lor LIBUSB_ENDPOINT_IN LIBUSB_REQUEST_TYPE_VENDOR)
                       LIBUSB_RECIPIENT_ENDPOINT)
                GREATFET_LIBGREAT_REQUEST_NUMBER GREATFET_LIBGREAT_VALUE_EXECUTE
                0 response_buffer length1 timeout) as (Hr & _ & rest & Hrest).
    fold (read_response Ein device response_buffer length1 timeout) in Hr, Hrest.
    rewrite Hz in Hrest.
    split; [rewrite Hc, count_calls_app, Hs, Hr; reflexivity|].
    split; [exists rest; rewrite Hc, Hrest; reflexivity|].
    intros h fresh Hdev Halloc Hmalloc.
    destruct (in_transfer_zero_length_calls Ein h
                (Z.lor (Z.lor LIBUSB_ENDPOINT_IN LIBUSB_REQUEST_TYPE_VENDOR)
                       LIBUSB_RECIPIENT_ENDPOINT)
                GREATFET_LIBGREAT_REQUEST_NUMBER GREATFET_LIBGREAT_VALUE_EXECUTE
                0 response_buffer length1 timeout fresh
                ltac:(discriminate) Hz Halloc Hmalloc) as (rest' & Hin).
    exists rest'. rewrite Hc. unfold read_response. rewrite Hdev, Hin. reflexivity.
Qed.

(** What goes to the device for a command: the outbound transfer
    submits the setup packet, whose [wIndex] holds the flags and whose
    [wLength] is the payload length plus eight, followed by the class
    and verb numbers in little-endian order and the first
    [payload_length] bytes of the payload; the rest of the payload
    array is not copied.  Class, verb and payload can be read back from
    the submitted bytes. *)
Theorem command_bytes_submitted
  (Eout Ein : xfer_env) (device : sr_dev_inst) (command : libgreat_command_packet)
  (response_buffer : option (list byte)) (response_max_length timeout : Z)
  (h : handle) (fresh : nat → byte) :
  devhdl (conn device) = Some h →
  env_alloc_transfer Eout = true →
  env_malloc Eout = Some fresh →
  0 <= payload_length command →
  payload_length command + 8 < 65536 →
  (Z.to_nat (payload_length command) ≤ length (payload command))%nat →
  let n := Z.to_nat (payload_length command) in
  let image :=
    setup_packet vendor_out (u8 GREATFET_LIBGREAT_REQUEST_NUMBER)
      (u16 GREATFET_LIBGREAT_VALUE_EXECUTE) (command_flags response_max_length)
      (payload_length command + 8)
    ++ le32 (class_number command) ++ le32 (verb_number command)
    ++ take n (payload command) ++ [fresh (16 + n)%nat] in
  let r := greatfet_execute_libgreat_command Eout Ein device command
             response_buffer response_max_length timeout in
  (∃ rest,
     ex_calls r
     = [Call_sync_async_control_transfer vendor_out
          (u8 GREATFET_LIBGREAT_REQUEST_NUMBER)
          (u16 GREATFET_LIBGREAT_VALUE_EXECUTE)
          (command_flags response_max_length)
          (payload_length command + 8);
        Call_libusb_alloc_transfer;
        Call_malloc (payload_length command + 17);
        Call_libusb_submit_transfer image] ++ rest)
  ∧ read_le32 8 image = u32 (class_number command)
  ∧ read_le32 12 image = u32 (verb_number command)
  ∧ take n (drop 16 image) = take n (payload command).
Proof.
  intros Hdev Halloc Hmalloc Hpos Hsmall Hfit n image r.
  assert (Hlen : u16 (u16 (payload_length command + 2 * 4))
                 = payload_length command + 8).
  { unfold u16. rewrite Z.mod_mod by lia. apply Z.mod_small. lia. }
  assert (Hfit' : (Z.to_nat (u16 (u16 (payload_length command + 2 * 4)))
                   ≤ length (packet_bytes command))%nat).
  { rewrite Hlen. unfold packet_bytes. rewrite !length_app. cbn [length le32]. lia. }
  destruct (out_transfer_calls Eout h
              (Z.lor (Z.lor LIBUSB_ENDPOINT_OUT LIBUSB_REQUEST_TYPE_VENDOR)
                     LIBUSB_RECIPIENT_ENDPOINT)
              GREATFET_LIBGREAT_REQUEST_NUMBER GREATFET_LIBGREAT_VALUE_EXECUTE
              (command_flags response_max_length)
              (u16 (payload_length command + 2 * 4)) timeout
              (packet_bytes command) fresh eq_refl Halloc Hmalloc Hfit')
    as ((rest & Hcalls) & _ & _).
  rewrite Hlen, command_flags_u16 in Hcalls.
  change (u8 (Z.lor (Z.lor LIBUSB_ENDPOINT_OUT LIBUSB_REQUEST_TYPE_VENDOR)
                    LIBUSB_RECIPIENT_ENDPOINT)) with vendor_out in Hcalls.
  assert (Htake : take (Z.to_nat (payload_length command + 8)) (packet_bytes command)
                  = le32 (class_number command) ++ le32 (verb_number command)
                    ++ take n (payload command)).
  { unfold packet_bytes.
    replace (Z.to_nat (payload_length command + 8)) with (4 + (4 + n))%nat by lia.
    rewrite (take_app_add' _ _ 4) by reflexivity. f_equal.
    rewrite (take_app_add' _ _ 4) by reflexivity. f_equal.
    rewrite take_app_le by exact Hfit. reflexivity. }
  rewrite Htake in Hcalls.
  replace (8 + Z.to_nat (payload_length command + 8))%nat with (16 + n)%nat
    in Hcalls by lia.
  replace (LIBUSB_CONTROL_SETUP_SIZE + (payload_length command + 8) + 1)
    with (payload_length command + 17) in Hcalls
    by (unfold LIBUSB_CONTROL_SETUP_SIZE; lia).
  rewrite <- !app_assoc in Hcalls.
  split.
  { subst r. unfold greatfet_execute_libgreat_command.
    unfold send_command at 2 3 4 5 6. rewrite Hdev.
    destruct (xr_outcome _) as [rc| |]; cbn [ex_calls];
      [destruct (rc <? 0); [|destruct (response_max_length =? 0)]|..];
      cbn [ex_calls]; rewrite ?Hcalls; eexists; reflexivity. }
  split; [|split].
  - subst image. unfold read_le32, setup_packet, le16, le32. cbn [app lookup list_lookup Nat.add].
    unfold default; cbn [from_option id]. apply le32_decode.
  - subst image. unfold read_le32, setup_packet, le16, le32. cbn [app lookup list_lookup Nat.add].
    unfold default; cbn [from_option id]. apply le32_decode.
  - subst image. unfold setup_packet, le16, le32. cbn [app skipn].
    rewrite drop_0, take_app_le by (rewrite length_take; lia).
    rewrite take_take. f_equal. lia.
Qed.

End ExecutorMore.

(** ** Identity strings *)

Section Strings.
Context {P : protocol_h} {Q : acquisition_h}.




End Strings.

(** ** Allocating and submitting the pool *)

Section PoolMore.
Context {P : protocol_h} {Q : acquisition_h}.

Lemma allocate_loop_eq (alloc : nat → option transfer_id) (m a : nat)
  (ctx : greatfet_context) :
  (a + m ≤ length (transfers ctx))%nat →
  let k := allocated_before_failure alloc a m in
  let reached := (S k `min` m)%nat in
  allocate_loop alloc ctx (seq a m)
  = {| alloc_rc := if (k <? m)%nat then ENOMEM else 0;
       alloc_context :=
         set_transfers ctx
           (take a (transfers ctx) ++ map alloc (seq a reached)
            ++ drop (a + reached) (transfers ctx)) |}.
Proof.
  revert a ctx. induction m as [|m IH]; intros a ctx Hlen; cbv zeta.
  - cbn [allocated_before_failure seq allocate_loop Nat.ltb Nat.leb].
    rewrite Nat.min_0_r. cbn [seq map app]. rewrite Nat.add_0_r, take_drop.
    rewrite set_transfers_same. reflexivity.
  - cbn [seq allocate_loop allocated_before_failure].
    assert (Hins : <[a := alloc a]> (transfers ctx)
                   = take a (transfers ctx) ++ alloc a :: drop (S a) (transfers ctx))
      by (apply insert_take_drop; lia).
    destruct (alloc a) as [t|] eqn:Ha.
    + rewrite IH by (cbn [transfers set_transfers]; rewrite length_insert; lia).
      cbv zeta. cbn [transfers set_transfers]. rewrite set_transfers_twice.
      set (k := allocated_before_failure alloc (S a) m).
      change (S k <? S m)%nat with (k <? m)%nat.
      replace (S (S k) `min` S m)%nat with (S (S k `min` m)) by lia.
      f_equal. f_equal. cbn [seq map]. rewrite Ha.
      rewrite drop_insert_lt by lia.
      replace (take (S a) (<[a:=Some t]> (transfers ctx)))
        with (take a (transfers ctx) ++ [Some t]).
      * rewrite <- app_assoc. cbn [app].
        replace (S a + S k `min` m)%nat with (a + S (S k `min` m))%nat by lia.
        reflexivity.
      * rewrite Hins. replace (S a) with (a + 1)%nat by lia.
        rewrite (take_app_add' _ _ a 1) by (rewrite length_take; lia).
        reflexivity.
    + cbn [Nat.ltb Nat.leb]. replace (1 `min` S m)%nat with 1%nat by lia.
      cbn [seq map app]. rewrite Ha, Hins.
      replace (a + 1)%nat with (S a) by lia. reflexivity.
Qed.

Lemma allocated_before_failure_spec alloc a m :
  let k := allocated_before_failure alloc a m in
  (k ≤ m)%nat
  ∧ (∀ i, (a ≤ i < a + k)%nat → alloc i ≠ None)
  ∧ ((k < m)%nat → alloc (a + k)%nat = None).
Proof.
  revert a. induction m as [|m IH]; intros a; cbn [allocated_before_failure].
  - cbv zeta. split; [lia|]. split; [intros i Hi; lia|lia].
  - destruct (alloc a) eqn:Ha; cbv zeta.
    + destruct (IH (S a)) as (H1 & H2 & H3). split; [lia|]. split.
      * intros i Hi. destruct (decide (i = a)) as [->|Hne]; [rewrite Ha; discriminate|].
        apply H2. lia.
      * intros Hk. replace (a + S _)%nat with (S a + allocated_before_failure alloc (S a) m)%nat
          by lia. apply H3. lia.
    + split; [lia|]. split; [intros i Hi; lia|].
      intros _. rewrite Nat.add_0_r. exact Ha.
Qed.

Lemma allocated_before_failure_first alloc m k :
  (k ≤ m)%nat →
  (∀ i, (i < k)%nat → alloc i ≠ None) →
  ((k < m)%nat → alloc k = None) →
  allocated_before_failure alloc 0 m = k.
Proof.
  intros Hk Hgood Hbad.
  destruct (allocated_before_failure_spec alloc 0 m) as (H1 & H2 & H3).
  set (k' := allocated_before_failure alloc 0 m) in *.
  destruct (Nat.lt_trichotomy k' k) as [Hlt|[Heq|Hgt]]; [|exact Heq|].
  - exfalso. apply (Hgood k' Hlt). apply H3. lia.
  - exfalso. apply (H2 k); [lia|]. apply Hbad. lia.
Qed.

(** Allocating the pool.  The call returns 0 when every allocation
    succeeds and [ENOMEM] at the first that fails.  On success every
    slot holds the transfer allocated for it.  On failure at slot [k]
    the slots before it hold their new transfers, slot [k] is null and
    the slots after it are as they were.  In both cases what the
    written slots held before is overwritten, not freed. *)
Theorem allocate_transfers_fills_until_failure
  (alloc : nat → option transfer_id) (device : sr_dev_inst) :
  length (transfers (priv device)) = GREATFET_TRANSFER_POOL_SIZE →
  let r := greatfet_allocate_transfers alloc device in
  ((∀ i, (i < GREATFET_TRANSFER_POOL_SIZE)%nat → alloc i ≠ None) →
   alloc_rc r = 0
   ∧ transfers (alloc_context r) = map alloc (seq 0 GREATFET_TRANSFER_POOL_SIZE)
   ∧ Forall (λ s, s ≠ None) (transfers (alloc_context r)))
  ∧ (∀ k, (k < GREATFET_TRANSFER_POOL_SIZE)%nat →
       (∀ i, (i < k)%nat → alloc i ≠ None) → alloc k = None →
       alloc_rc r = ENOMEM
       ∧ transfers (alloc_context r)
         = map alloc (seq 0 k) ++ None :: drop (S k) (transfers (priv device)))
  ∧ length (transfers (alloc_context r)) = GREATFET_TRANSFER_POOL_SIZE.
Proof.
  intros Hlen r. subst r. unfold greatfet_allocate_transfers.
  rewrite allocate_loop_eq by lia. cbv zeta. cbn [alloc_rc alloc_context transfers set_transfers].
  rewrite take_0. cbn [app Nat.add].
  split; [|split].
  - intros Hall.
    rewrite (allocated_before_failure_first alloc _ GREATFET_TRANSFER_POOL_SIZE
               (Nat.le_refl _) Hall ltac:(lia)).
    rewrite Nat.ltb_irrefl.
    replace (S GREATFET_TRANSFER_POOL_SIZE `min` GREATFET_TRANSFER_POOL_SIZE)%nat
      with GREATFET_TRANSFER_POOL_SIZE by lia.
    rewrite drop_ge, app_nil_r by lia.
    split; [reflexivity|]. split; [reflexivity|].
    apply Forall_forall. intros s Hs. apply list_elem_of_fmap in Hs.
    destruct Hs as (i & -> & Hi). apply elem_of_seq in Hi. apply Hall. lia.
  - intros k Hk Hgood Hbad.
    rewrite (allocated_before_failure_first alloc GREATFET_TRANSFER_POOL_SIZE k
               (Nat.lt_le_incl _ _ Hk) Hgood (λ _, Hbad)).
    destruct (Nat.ltb_spec k GREATFET_TRANSFER_POOL_SIZE); [|lia].
    replace (S k `min` GREATFET_TRANSFER_POOL_SIZE)%nat with (S k) by lia.
    split; [reflexivity|].
    rewrite seq_S, map_app. cbn [map Nat.add]. rewrite Hbad, <- app_assoc. reflexivity.
  - rewrite length_app, length_map, length_seq, length_drop. lia.
Qed.

(** Allocation followed by release.  From a pool of null slots,
    [greatfet_free_transfers] after [greatfet_allocate_transfers] frees
    exactly the transfers that were allocated, those of the slots
    before the failure if there was one, and leaves every slot null.
    From any pool, the transfers that were in slots the allocation
    wrote to are not among those it frees: it frees the new ones and
    those of the slots the allocation did not reach. *)
Theorem allocate_then_free
  (alloc : nat → option transfer_id) (device : sr_dev_inst) :
  length (transfers (priv device)) = GREATFET_TRANSFER_POOL_SIZE →
  let k := allocated_before_failure alloc 0 GREATFET_TRANSFER_POOL_SIZE in
  let r := greatfet_free_transfers
             (alloc_context (greatfet_allocate_transfers alloc device)) in
  freed r
  = omap alloc (seq 0 k) ++ live (drop (S k) (transfers (priv device)))
  ∧ transfers (free_context r) = replicate GREATFET_TRANSFER_POOL_SIZE None
  ∧ (Forall (λ s, s = None) (transfers (priv device)) →
     freed r = omap alloc (seq 0 k)).
Proof.
  intros Hlen k r.
  assert (Hts : transfers (alloc_context (greatfet_allocate_transfers alloc device))
                = map alloc (seq 0 (S k `min` GREATFET_TRANSFER_POOL_SIZE))
                  ++ drop (S k `min` GREATFET_TRANSFER_POOL_SIZE)
                       (transfers (priv device))).
  { unfold greatfet_allocate_transfers. rewrite allocate_loop_eq by lia.
    cbv zeta. cbn [alloc_context transfers set_transfers]. rewrite take_0. reflexivity. }
  assert (Hfreed : freed r
                   = omap alloc (seq 0 k) ++ live (drop (S k) (transfers (priv device)))).
  { subst r. rewrite greatfet_free_transfers_eq
      by (rewrite Hts, length_app, length_map, length_seq, length_drop; lia).
    cbn [freed]. rewrite Hts. unfold live. rewrite omap_app.
    destruct (allocated_before_failure_spec alloc 0 GREATFET_TRANSFER_POOL_SIZE)
      as (Hk & _ & Hbad). fold k in Hk, Hbad.
    assert (Homap : ∀ l : list nat, omap id (map alloc l) = omap alloc l).
    { induction l as [|i l IHl]; [reflexivity|].
      cbn [map omap list_omap]. unfold id at 1. destruct (alloc i); rewrite IHl; reflexivity. }
    rewrite Homap.
    destruct (decide (k < GREATFET_TRANSFER_POOL_SIZE)%nat) as [Hlt|Hge].
    - replace (S k `min` GREATFET_TRANSFER_POOL_SIZE)%nat with (S k) by lia.
      rewrite seq_S, omap_app. cbn [omap list_omap Nat.add].
      pose proof (Hbad Hlt) as Hnone. cbn [Nat.add] in Hnone.
      rewrite Hnone, app_nil_r. reflexivity.
    - replace (S k `min` GREATFET_TRANSFER_POOL_SIZE)%nat with k by lia.
      rewrite !drop_ge by lia. reflexivity. }
  split; [exact Hfreed|]. split.
  - subst r. rewrite greatfet_free_transfers_eq
      by (rewrite Hts, length_app, length_map, length_seq, length_drop; lia).
    reflexivity.
  - intros Hnull. rewrite Hfreed.
    rewrite (live_all_null (drop (S k) (transfers (priv device)))), app_nil_r;
      [reflexivity|].
    apply Forall_drop, Hnull.
Qed.

End PoolMore.

Section Prepare.
Context {P : protocol_h} {Q : acquisition_h}.

Lemma prepare_loop_ready segment_null submit device callback good log rest :
  Forall (slot_ready segment_null submit device) good →
  prepare_loop segment_null submit device callback log (good ++ rest)
  = prepare_loop segment_null submit device callback
      (log ++ submissions device callback good) rest.
Proof.
  intros Hgood. revert log.
  induction Hgood as [|i good (t & Ht & Hseg & Hsub) _ IH]; intros log.
  - cbn. rewrite app_nil_r. reflexivity.
  - cbn [app prepare_loop]. rewrite Ht, Hseg, Hsub. cbn [Z.eqb].
    rewrite IH. unfold submissions. cbn [omap list_omap]. rewrite Ht.
    rewrite <- app_assoc. reflexivity.
Qed.

Lemma submissions_ready segment_null submit device callback slots :
  Forall (slot_ready segment_null submit device) slots →
  map bulk_offset (submissions device callback slots)
  = map (λ i, (i * GREATFET_TRANSFER_BUFFER_SIZE)%nat) slots
  ∧ Forall (λ b, bulk_endpoint b = u8 (endpoint (priv device))
                 ∧ bulk_length b = GREATFET_TRANSFER_BUFFER_SIZE
                 ∧ bulk_dev_handle b = devhdl (conn device)
                 ∧ bulk_callback b = callback)
           (submissions device callback slots)
  ∧ map (λ b, Some (Some (bulk_transfer b))) (submissions device callback slots)
    = map (λ i, transfers (priv device) !! i) slots.
Proof.
  induction 1 as [|i slots (t & Ht & _ & _) _ (IH1 & IH2 & IH3)].
  - repeat split. constructor.
  - unfold submissions in *. cbn [omap list_omap map]. rewrite Ht. cbn [map].
    split; [f_equal; exact IH1|]. split.
    + constructor; [repeat split|exact IH2].
    + f_equal; exact IH3.
Qed.

(** Submitting the pool when every slot is ready: the call returns 0
    after submitting the transfers of all slots in slot order, each
    bound to the device handle, to the endpoint recorded in the context,
    to the caller's callback, and to its own segment of the capture
    buffer, at offset [i * SIZE] and of length [SIZE]. *)
Theorem prepare_transfers_submits_every_slot
  (segment_null : nat → bool) (submit : transfer_id → Z)
  (device : sr_dev_inst) (callback : nat) :
  Forall (slot_ready segment_null submit device)
         (seq 0 GREATFET_TRANSFER_POOL_SIZE) →
  let r := greatfet_prepare_transfers segment_null submit device callback in
  prep_outcome r = Returned 0
  ∧ length (prep_submitted r) = GREATFET_TRANSFER_POOL_SIZE
  ∧ map bulk_offset (prep_submitted r)
    = map (λ i, (i * GREATFET_TRANSFER_BUFFER_SIZE)%nat)
          (seq 0 GREATFET_TRANSFER_POOL_SIZE)
  ∧ map (λ b, Some (Some (bulk_transfer b))) (prep_submitted r)
    = map (λ i, transfers (priv device) !! i) (seq 0 GREATFET_TRANSFER_POOL_SIZE)
  ∧ Forall (λ b, bulk_endpoint b = u8 (endpoint (priv device))
                 ∧ bulk_length b = GREATFET_TRANSFER_BUFFER_SIZE
                 ∧ bulk_dev_handle b = devhdl (conn device)
                 ∧ bulk_callback b = callback)
           (prep_submitted r).
Proof.
  intros Hready r. subst r. unfold greatfet_prepare_transfers.
  pose proof (prepare_loop_ready segment_null submit device callback _ [] []
                Hready) as Hrun.
  rewrite app_nil_r in Hrun. rewrite Hrun. cbn [prepare_loop app].
  cbn [prep_outcome prep_submitted].
  destruct (submissions_ready _ _ _ callback _ Hready) as (H1 & H2 & H3).
  split; [reflexivity|]. split.
  { rewrite <- (length_map bulk_offset), H1, length_map, length_seq. reflexivity. }
  split; [exact H1|]. split; [exact H3|exact H2].
Qed.

(** Submitting the pool stops at the first slot that is not ready, with
    the transfers of the slots before it submitted and left so.  If
    that slot is null the call faults; if its buffer segment is null the
    call returns [ENOMEM]; if libusb refuses its transfer the call
    returns [EIO], that transfer being the last one it tried. *)
Theorem prepare_transfers_stops_at_first_failure
  (segment_null : nat → bool) (submit : transfer_id → Z)
  (device : sr_dev_inst) (callback : nat) (k : nat) :
  (k < GREATFET_TRANSFER_POOL_SIZE)%nat →
  Forall (slot_ready segment_null submit device) (seq 0 k) →
  let r := greatfet_prepare_transfers segment_null submit device callback in
  (transfers (priv device) !! k = Some None →
   prep_outcome r = Faults
   ∧ prep_submitted r = submissions device callback (seq 0 k))
  ∧ (∀ t, transfers (priv device) !! k = Some (Some t) →
       segment_null k = true →
       prep_outcome r = Returned ENOMEM
       ∧ prep_submitted r = submissions device callback (seq 0 k))
  ∧ (∀ t, transfers (priv device) !! k = Some (Some t) →
       segment_null k = false → submit t ≠ 0 →
       prep_outcome r = Returned EIO
       ∧ prep_submitted r
         = submissions device callback (seq 0 k) ++ [fill_slot device callback k t])
  ∧ length (submissions device callback (seq 0 k)) = k.
Proof.
  intros Hk Hready r. subst r. unfold greatfet_prepare_transfers.
  replace GREATFET_TRANSFER_POOL_SIZE
    with (k + S (GREATFET_TRANSFER_POOL_SIZE - S k))%nat by lia.
  rewrite seq_app, (prepare_loop_ready _ _ _ _ _ _ _ Hready).
  cbn [seq Nat.add app prepare_loop].
  split; [|split; [|split]].
  - intros Hnull. rewrite Hnull. split; reflexivity.
  - intros t Ht Hseg. rewrite Ht, Hseg. split; reflexivity.
  - intros t Ht Hseg Hsub. rewrite Ht, Hseg.
    destruct (Z.eqb_spec (submit t) 0); [contradiction|]. split; reflexivity.
  - destruct (submissions_ready _ _ _ callback _ Hready) as (H1 & _).
    rewrite <- (length_map bulk_offset), H1, length_map, length_seq. reflexivity.
Qed.

End Prepare.

(** ** Starting and stopping the acquisition *)

Section Acquire.
Context {P : protocol_h} {Q : acquisition_h}.

Lemma execute_calls_count
  (Eout Ein : xfer_env) (device : sr_dev_inst) (command : libgreat_command_packet)
  (response_buffer : option (list byte)) (response_max_length timeout : Z) :
  let r := greatfet_execute_libgreat_command Eout Ein device command
             response_buffer response_max_length timeout in
  (count_calls is_control_transfer (ex_calls r) ≤ 2)%nat
  ∧ (response_max_length = 0 →
     count_calls is_control_transfer (ex_calls r) = 1%nat
     ∧ ex_calls r = xr_calls (send_command Eout device command
                                response_max_length timeout)
     ∧ ∀ rc, ex_outcome r = Returned rc →
         ∃ rc', xr_outcome (send_command Eout device command
                              response_max_length timeout) = Returned rc'
                ∧ (rc <? 0) = (rc' <? 0)).
Proof.
  cbv zeta. unfold greatfet_execute_libgreat_command.
  pose proof (sync_async_calls Eout (devhdl (conn device))
                (Z.lor (Z.lor LIBUSB_ENDPOINT_OUT LIBUSB_REQUEST_TYPE_VENDOR)
                       LIBUSB_RECIPIENT_ENDPOINT)
                GREATFET_LIBGREAT_REQUEST_NUMBER GREATFET_LIBGREAT_VALUE_EXECUTE
                (command_flags response_max_length) (Some (packet_bytes command))
                (u16 (payload_length command + 2 * 4)) timeout) as (Hs & _).
  pose proof (sync_async_calls Ein (devhdl (conn device))
                (Z.lor (Z.lor LIBUSB_ENDPOINT_IN LIBUSB_REQUEST_TYPE_VENDOR)
                       LIBUSB_RECIPIENT_ENDPOINT)
                GREATFET_LIBGREAT_REQUEST_NUMBER GREATFET_LIBGREAT_VALUE_EXECUTE
                0 response_buffer response_max_length timeout) as (Hr & _).
  fold (send_command Eout device command response_max_length timeout) in Hs.
  fold (read_response Ein device response_buffer response_max_length timeout) in Hr.
  set (sent := send_command Eout device command response_max_length timeout) in *.
  destruct (xr_outcome sent) as [rc| |] eqn:Hout.
  - destruct (Z.ltb_spec rc 0) as [Hneg|Hpos].
    + cbn [ex_calls ex_outcome]. rewrite Hs. split; [lia|]. intros _.
      split; [reflexivity|]. split; [reflexivity|].
      intros rc0 [= <-]. exists rc. split; reflexivity.
    + destruct (Z.eqb_spec response_max_length 0) as [Hz|Hnz].
      * cbn [ex_calls ex_outcome]. rewrite Hs. split; [lia|]. intros _.
        split; [reflexivity|]. split; [reflexivity|].
        intros rc0 [= <-]. exists rc. split; [reflexivity|].
        destruct (Z.ltb_spec rc 0); [lia|reflexivity].
      * cbn [ex_calls]. rewrite count_calls_app, Hs, Hr. split; [lia|].
        intros Hz. contradiction.
  - cbn [ex_calls ex_outcome]. rewrite Hs. split; [lia|]. intros _.
    split; [reflexivity|]. split; [reflexivity|]. intros rc0 Hrc0. discriminate Hrc0.
  - cbn [ex_calls ex_outcome]. rewrite Hs. split; [lia|]. intros _.
    split; [reflexivity|]. split; [reflexivity|]. intros rc0 Hrc0. discriminate Hrc0.
Qed.

(** Starting the acquisition.  If the configuration returns a negative
    result the call returns [SR_ERR_IO] having done nothing more, its
    last call being the claim of the interface; the context keeps the
    endpoint the configuration stored.  Otherwise it sends the start
    command as one outbound transfer without payload and with the
    skip-response flag, and returns [SR_ERR_IO] if that transfer
    returned a negative result and [SR_OK] if not.  There are never
    more than three control transfers. *)
Theorem start_acquire_configures_then_starts
  (Ecfg_out Ecfg_in : xfer_env) (stack : nat → byte) (Estart : xfer_env)
  (device : sr_dev_inst) :
  let c := greatfet_configure Ecfg_out Ecfg_in stack device in
  let sent := send_command Estart (with_context device (cfg_context c))
                (la_packet GREATFET_LA_VERB_START) 0
                GREATFET_LOGIC_DEFAULT_TIMEOUT in
  let r := greatfet_start_acquire Ecfg_out Ecfg_in stack Estart device in
  (∀ rc, cfg_outcome c = Returned rc → rc < 0 →
     acq_outcome r = Returned SR_ERR_IO
     ∧ acq_calls r = cfg_calls c
     ∧ last (acq_calls r) = Some (Call_libusb_claim_interface 1)
     ∧ acq_context r = cfg_context c)
  ∧ (∀ rc, cfg_outcome c = Returned rc → 0 <= rc →
       acq_calls r = cfg_calls c ++ xr_calls sent
       ∧ (∃ rest, xr_calls sent
            = Call_sync_async_control_transfer vendor_out
                (u8 GREATFET_LIBGREAT_REQUEST_NUMBER)
                (u16 GREATFET_LIBGREAT_VALUE_EXECUTE)
                (command_flags 0) 8 :: rest)
       ∧ (∀ rc', xr_outcome sent = Returned rc' →
            acq_outcome r = Returned (if rc' <? 0 then SR_ERR_IO else SR_OK))
       ∧ acq_context r = cfg_context c)
  ∧ (count_calls is_control_transfer (acq_calls r) ≤ 3)%nat.
Proof.
  intros c sent r.
  set (e := greatfet_execute_libgreat_command Estart Estart
              (with_context device (cfg_context c))
              (la_packet GREATFET_LA_VERB_START) None 0
              GREATFET_LOGIC_DEFAULT_TIMEOUT).
  destruct (execute_calls_count Estart Estart (with_context device (cfg_context c))
              (la_packet GREATFET_LA_VERB_START) None 0
              GREATFET_LOGIC_DEFAULT_TIMEOUT) as (_ & Hstart).
  destruct (Hstart eq_refl) as (Hone & Hcalls & Hrc). fold e in Hone, Hcalls, Hrc.
  fold sent in Hcalls, Hrc.
  assert (Hcfg : (count_calls is_control_transfer (cfg_calls c) ≤ 2)%nat
                 ∧ ∀ rc, cfg_outcome c = Returned rc →
                     last (cfg_calls c) = Some (Call_libusb_claim_interface 1)).
  { subst c. unfold greatfet_configure.
    destruct (execute_calls_count Ecfg_out Ecfg_in device
                (configure_packet (priv device))
                (Some (map stack (seq 0 sizeof_configure_response)))
                (Z.of_nat sizeof_configure_response)
                GREATFET_LOGIC_DEFAULT_TIMEOUT) as (Hle & _).
    fold (configure_command Ecfg_out Ecfg_in stack device) in Hle.
    destruct (ex_outcome (configure_command Ecfg_out Ecfg_in stack device));
      cbn [cfg_calls cfg_outcome].
    - rewrite count_calls_app. cbn. split; [lia|]. intros _ _. apply last_snoc.
    - split; [exact Hle|]. intros rc Hrc0. discriminate Hrc0.
    - split; [exact Hle|]. intros rc Hrc0. discriminate Hrc0. }
  destruct Hcfg as [Hcount Hlast].
  split; [|split].
  - intros rc Hc Hneg. subst r. unfold greatfet_start_acquire. fold c. rewrite Hc.
    destruct (Z.ltb_spec rc 0); [|lia]. cbn.
    split; [reflexivity|]. split; [reflexivity|]. split; [|reflexivity].
    exact (Hlast rc Hc).
  - intros rc Hc Hpos. subst r. unfold greatfet_start_acquire. fold c. rewrite Hc.
    destruct (Z.ltb_spec rc 0); [lia|]. fold e.
    assert (Hhead : ∃ rest, xr_calls sent
              = Call_sync_async_control_transfer vendor_out
                  (u8 GREATFET_LIBGREAT_REQUEST_NUMBER)
                  (u16 GREATFET_LIBGREAT_VALUE_EXECUTE)
                  (command_flags 0) 8 :: rest).
    { subst sent. unfold send_command.
      destruct (sync_async_calls Estart
                  (devhdl (conn (with_context device (cfg_context c))))
                  (Z.lor (Z.lor LIBUSB_ENDPOINT_OUT LIBUSB_REQUEST_TYPE_VENDOR)
                         LIBUSB_RECIPIENT_ENDPOINT)
                  GREATFET_LIBGREAT_REQUEST_NUMBER GREATFET_LIBGREAT_VALUE_EXECUTE
                  (command_flags 0)
                  (Some (packet_bytes (la_packet GREATFET_LA_VERB_START)))
                  (u16 (payload_length (la_packet GREATFET_LA_VERB_START) + 2 * 4))
                  GREATFET_LOGIC_DEFAULT_TIMEOUT) as (_ & _ & rest & Hrest).
      rewrite command_flags_u16 in Hrest. exists rest. exact Hrest. }
    destruct (ex_outcome e) as [rc'| |] eqn:He; cbn [acq_calls acq_outcome acq_context];
      rewrite Hcalls; (split; [reflexivity|]); (split; [exact Hhead|]);
      (split; [|reflexivity]).
    + intros rc0 Hrc0. destruct (Hrc rc' eq_refl) as (rc1 & Hrc1 & Hsign).
      rewrite Hrc0 in Hrc1. injection Hrc1 as <-. rewrite Hsign. reflexivity.
    + intros rc0 Hrc0. exfalso. subst e. unfold greatfet_execute_libgreat_command in He.
      fold sent in He. rewrite Hrc0 in He.
      destruct (rc0 <? 0); [discriminate He|]. cbn in He. discriminate He.
    + intros rc0 Hrc0. exfalso. subst e. unfold greatfet_execute_libgreat_command in He.
      fold sent in He. rewrite Hrc0 in He.
      destruct (rc0 <? 0); [discriminate He|]. cbn in He. discriminate He.
  - subst r. unfold greatfet_start_acquire. fold c.
    destruct (cfg_outcome c) as [rc| |]; cbn [acq_calls]; [|lia..].
    destruct (rc <? 0); cbn [acq_calls]; [lia|]. fold e.
    destruct (ex_outcome e); cbn [acq_calls]; rewrite count_calls_app; lia.
Qed.

(** Stopping the acquisition: the interface is released first, then the
    stop command is sent as one outbound transfer without payload and
    with the skip-response flag, and nothing else is sent; the call
    returns [SR_ERR_IO] if that transfer returned a negative result and
    [SR_OK] if not. *)
Theorem stop_acquire_releases_then_stops (Estop : xfer_env) (device : sr_dev_inst) :
  let sent := send_command Estop device (la_packet GREATFET_LA_VERB_STOP) 0
                (u32 (GREATFET_LOGIC_DEFAULT_TIMEOUT * 1000)) in
  let r := greatfet_stop_acquire Estop device in
  stop_calls r = Acq_libusb_release_interface 1 :: map Acq_call (xr_calls sent)
  ∧ count_calls is_control_transfer (xr_calls sent) = 1%nat
  ∧ (∃ rest, xr_calls sent
       = Call_sync_async_control_transfer vendor_out
           (u8 GREATFET_LIBGREAT_REQUEST_NUMBER)
           (u16 GREATFET_LIBGREAT_VALUE_EXECUTE)
           (command_flags 0) 8 :: rest)
  ∧ (∀ rc, xr_outcome sent = Returned rc →
       stop_outcome r = Returned (if rc <? 0 then SR_ERR_IO else SR_OK))
  ∧ (∀ x, stop_outcome r = Returned x → ∃ rc, xr_outcome sent = Returned rc).
Proof.
  intros sent r.
  set (e := greatfet_execute_libgreat_command Estop Estop device
              (la_packet GREATFET_LA_VERB_STOP) None 0
              (u32 (GREATFET_LOGIC_DEFAULT_TIMEOUT * 1000))).
  destruct (execute_calls_count Estop Estop device
              (la_packet GREATFET_LA_VERB_STOP) None 0
              (u32 (GREATFET_LOGIC_DEFAULT_TIMEOUT * 1000))) as (_ & Hstop).
  destruct (Hstop eq_refl) as (Hone & Hcalls & Hrc). fold e in Hone, Hcalls, Hrc.
  fold sent in Hcalls, Hrc.
  assert (Hhead : ∃ rest, xr_calls sent
            = Call_sync_async_control_transfer vendor_out
                (u8 GREATFET_LIBGREAT_REQUEST_NUMBER)
                (u16 GREATFET_LIBGREAT_VALUE_EXECUTE)
                (command_flags 0) 8 :: rest).
  { subst sent. unfold send_command.
    destruct (sync_async_calls Estop (devhdl (conn device))
                (Z.lor (Z.lor LIBUSB_ENDPOINT_OUT LIBUSB_REQUEST_TYPE_VENDOR)
                       LIBUSB_RECIPIENT_ENDPOINT)
                GREATFET_LIBGREAT_REQUEST_NUMBER GREATFET_LIBGREAT_VALUE_EXECUTE
                (command_flags 0)
                (Some (packet_bytes (la_packet GREATFET_LA_VERB_STOP)))
                (u16 (payload_length (la_packet GREATFET_LA_VERB_STOP) + 2 * 4))
                (u32 (GREATFET_LOGIC_DEFAULT_TIMEOUT * 1000)))
      as (_ & _ & rest & Hrest).
    rewrite command_flags_u16 in Hrest. exists rest. exact Hrest. }
  subst r. unfold greatfet_stop_acquire. fold e.
  split.
  { destruct (ex_outcome e); cbn [stop_calls app]; rewrite Hcalls; reflexivity. }
  split; [rewrite <- Hcalls; exact Hone|]. split; [exact Hhead|]. split.
  - intros rc Hsent.
    destruct (ex_outcome e) as [rc'| |] eqn:He; cbn [stop_outcome].
    + destruct (Hrc rc' eq_refl) as (rc1 & Hrc1 & Hsign).
      rewrite Hsent in Hrc1. injection Hrc1 as <-. rewrite Hsign. reflexivity.
    + exfalso. subst e. unfold greatfet_execute_libgreat_command in He.
      fold sent in He. rewrite Hsent in He.
      destruct (rc <? 0); [discriminate He|]. cbn in He. discriminate He.
    + exfalso. subst e. unfold greatfet_execute_libgreat_command in He.
      fold sent in He. rewrite Hsent in He.
      destruct (rc <? 0); [discriminate He|]. cbn in He. discriminate He.
  - intros x Hx. destruct (ex_outcome e) as [rc'| |] eqn:He; cbn [stop_outcome] in Hx;
      [|discriminate Hx..].
    destruct (Hrc rc' eq_refl) as (rc1 & Hrc1 & _). eauto.
Qed.

End Acquire.

(** ** The configure payload *)

Section ConfigurePayload.
Context {P : protocol_h}.

(** The packet of the configure command: logic-analyzer class,
    configure verb and a payload of five bytes, the sample rate as a
    little-endian 32-bit value and the channel count as one byte, both
    readable back from it.  The rate is cut to 32 bits and the channel
    count to 8: contexts that agree on these give the same packet. *)
Theorem configure_packet_payload (context : greatfet_context) :
  let p := configure_packet context in
  class_number p = GREATFET_CLASS_LA
  ∧ verb_number p = GREATFET_LA_VERB_CONFIGURE
  ∧ payload_length p = 5
  ∧ read_le32 0 (payload p) = u32 (sample_rate context)
  ∧ read_u8 4 (payload p) = u8 (num_channels context)
  ∧ (∀ context',
       u32 (sample_rate context') = u32 (sample_rate context) →
       u8 (num_channels context') = u8 (num_channels context) →
       configure_packet context' = configure_packet context).
Proof.
  cbv zeta. unfold configure_packet. cbn [class_number verb_number payload payload_length].
  split; [reflexivity|]. split; [reflexivity|]. split; [reflexivity|].
  split; [|split].
  - unfold store_at, read_le32, le32. rewrite take_0. cbn [app lookup list_lookup Nat.add].
    unfold default; cbn [from_option id]. rewrite le32_decode.
    unfold u32. apply Z.mod_mod. lia.
  - unfold store_at, read_u8, le32. rewrite take_0. cbn [app lookup list_lookup].
    unfold default; cbn [from_option id]. rewrite Z_of_byte_of_Z.
    unfold u8. apply Z.mod_mod. lia.
  - intros context' Hrate Hchan. rewrite Hrate, Hchan. reflexivity.
Qed.

End ConfigurePayload.

(** ** The further properties on the sample data *)

(** Two interrupted rounds, then the completion. *)
Lemma wait_retries_sample :
  completed sample_transfer = false
  ∧ wait_outcome (sync_transfer_wait_for_completion sample_transfer
                    ([pump_interrupted; pump_interrupted] ++ [pump_completes []]))
    = Returned (Some 0)
  ∧ wait_calls (sync_transfer_wait_for_completion sample_transfer
                  ([pump_interrupted; pump_interrupted] ++ [pump_completes []]))
    = [Call_libusb_handle_events_completed; Call_libusb_handle_events_completed;
       Call_libusb_handle_events_completed].
Proof.
  assert (Hint : Forall (λ p, pump_rc p = LIBUSB_ERROR_INTERRUPTED
                              ∧ pump_callback p = None ∧ pump_handle_gone p = false)
                   [pump_interrupted; pump_interrupted])
    by (repeat constructor).
  pose proof (wait_retries_after_interruption sample_transfer
                [pump_interrupted; pump_interrupted] [pump_completes []]
                eq_refl Hint) as (H1 & _ & H3).
  split; [reflexivity|]. split.
  - rewrite H1. reflexivity.
  - rewrite H3. reflexivity.
Defined.

(** An event-processing error: one cancellation, the last call. *)
Lemma wait_cancels_sample :
  count_calls is_cancel
    (wait_calls (sync_transfer_wait_for_completion sample_transfer [pump_io_error]))
  = 1%nat
  ∧ last (wait_calls (sync_transfer_wait_for_completion sample_transfer
                        [pump_io_error]))
    = Some Call_libusb_cancel_transfer.
Proof.
  pose proof (wait_cancels_exactly_on_error sample_transfer [pump_io_error])
    as (_ & H2 & H3).
  assert (Hone : count_calls is_cancel
            (wait_calls (sync_transfer_wait_for_completion sample_transfer
                           [pump_io_error])) = 1%nat).
  { apply H2. exists LIBUSB_ERROR_IO. split; [reflexivity|].
    split; [reflexivity|discriminate]. }
  split; [exact Hone|exact (H3 Hone)].
Defined.

(** The device handle found null after a successful round. *)
Lemma wait_no_device_sample :
  wait_outcome (sync_transfer_wait_for_completion sample_transfer [pump_device_gone])
    = Returned (Some 0)
  ∧ dev_handle (wait_transfer (sync_transfer_wait_for_completion sample_transfer
                                 [pump_device_gone])) = None
  ∧ status (wait_transfer (sync_transfer_wait_for_completion sample_transfer
                             [pump_device_gone])) = LIBUSB_TRANSFER_NO_DEVICE
  ∧ completed (wait_transfer (sync_transfer_wait_for_completion sample_transfer
                                [pump_device_gone])) = true.
Proof.
  pose proof (wait_sets_flag_and_no_device sample_transfer [pump_device_gone] 0
                eq_refl) as (_ & H2).
  split; [reflexivity|]. split; [reflexivity|].
  exact (H2 (Z.le_refl 0) eq_refl).
Defined.


Lemma out_transfer_data_sample :
  Z.land (u8 vendor_out) LIBUSB_ENDPOINT_IN = 0
  ∧ xr_data out_run = Some [x01; x02; x03; x04].
Proof.
  split; [reflexivity|].
  exact (out_transfer_leaves_data (sample_env 0 [pump_completes []]) (Some 7%nat)
           vendor_out 101 0 1 3 1000 (Some [x01; x02; x03; x04]) eq_refl).
Defined.


(** No scratch buffer: the transfer is allocated and not freed. *)
Lemma control_transfer_leak_sample :
  xr_outcome (sync_async_control_transfer no_memory_env (Some 7%nat)
                vendor_out 101 0 1 (Some []) 0 1000)
    = Returned LIBUSB_ERROR_NO_MEM
  ∧ count_calls is_alloc_transfer
      (xr_calls (sync_async_control_transfer no_memory_env (Some 7%nat)
                   vendor_out 101 0 1 (Some []) 0 1000)) = 1%nat
  ∧ count_calls is_free_transfer
      (xr_calls (sync_async_control_transfer no_memory_env (Some 7%nat)
                   vendor_out 101 0 1 (Some []) 0 1000)) = 0%nat
  ∧ count_calls is_free_transfer (xr_calls out_run) = 1%nat.
Proof.
  pose proof (control_transfer_releases no_memory_env (Some 7%nat)
                vendor_out 101 0 1 0 1000 (Some [])) as (_ & _ & _ & H4).
  pose proof (control_transfer_releases (sample_env 0 [pump_completes []])
                (Some 7%nat) vendor_out 101 0 1 3 1000 (Some [x01; x02; x03; x04]))
    as (_ & _ & H3 & _).
  destruct (H4 ltac:(discriminate) eq_refl eq_refl) as (A & B & C).
  split; [exact A|]. split; [exact B|]. split; [exact C|].
  apply H3. split; [reflexivity|]. exists 0. reflexivity.
Defined.

Lemma execute_single_transfer_sample :
  count_calls is_control_transfer (ex_calls no_response_run) = 1%nat
  ∧ ex_response no_response_run = None
  ∧ @greatfet_execute_libgreat_command example_protocol_h
      (sample_env 0 [pump_completes []]) no_memory_env
      sample_device sample_packet None 0 1000 = no_response_run.
Proof.
  pose proof (@execute_single_transfer_leaves_response example_protocol_h
                (sample_env 0 [pump_completes []]) (sample_env 0 [])
                sample_device sample_packet None 0 1000 eq_refl) as (H1 & H2).
  split; [reflexivity|]. split; [exact H1|exact (H2 no_memory_env)].
Defined.

(** Lengths 12 and 65548 give the same call; with length 65536 the
    inbound transfer is made with [wLength] 0 and reads nothing. *)
Lemma execute_truncation_sample :
  u16 12 = u16 65548
  ∧ @greatfet_execute_libgreat_command example_protocol_h
      (sample_env 0 [pump_completes []]) (sample_env 0 [pump_completes sample_reply])
      sample_device sample_packet (Some (replicate 12 x00)) 65548 1000
    = read_string_run
  ∧ u16 65536 = 0
  ∧ ex_response
      (@greatfet_execute_libgreat_command example_protocol_h
         (sample_env 0 [pump_completes []])
         (sample_env 0 [pump_completes sample_reply])
         sample_device sample_packet (Some (replicate 12 x00)) 65536 1000)
    = Some (replicate 12 x00)
  ∧ count_calls is_control_transfer
      (ex_calls
         (@greatfet_execute_libgreat_command example_protocol_h
            (sample_env 0 [pump_completes []])
            (sample_env 0 [pump_completes sample_reply])
            sample_device sample_packet (Some (replicate 12 x00)) 65536 1000))
    = 2%nat
  ∧ In (Call_libusb_submit_transfer (setup_packet vendor_in 101 0 0 0 ++ [xff]))
       (ex_calls
          (@greatfet_execute_libgreat_command example_protocol_h
             (sample_env 0 [pump_completes []])
             (sample_env 0 [pump_completes sample_reply])
             sample_device sample_packet (Some (replicate 12 x00)) 65536 1000)).
Proof.
  pose proof (@execute_truncates_response_length example_protocol_h
                (sample_env 0 [pump_completes []])
                (sample_env 0 [pump_completes sample_reply])
                sample_device sample_packet (Some (replicate 12 x00)) 65548 12 1000
                ltac:(discriminate) ltac:(discriminate) eq_refl) as (H1 & _).
  pose proof (@execute_truncates_response_length example_protocol_h
                (sample_env 0 [pump_completes []])
                (sample_env 0 [pump_completes sample_reply])
                sample_device sample_packet (Some (replicate 12 x00)) 65536 65536 1000
                ltac:(discriminate) ltac:(discriminate) eq_refl) as (_ & H2 & H3).
  destruct (H3 eq_refl 0 eq_refl (Z.le_refl 0)) as (H3a & _ & H3b).
  destruct (H3b 7%nat (λ _, xff) eq_refl eq_refl eq_refl) as (rest & H3c).
  split; [reflexivity|]. split; [exact H1|]. split; [reflexivity|].
  split; [exact (H2 eq_refl)|]. split; [exact H3a|].
  rewrite H3c. apply in_or_app. right. apply in_or_app. left.
  right. right. right. left. reflexivity.
Defined.

(** A command with three bytes of payload: eleven bytes follow the setup
    packet. *)
Lemma command_bytes_sample :
  (Z.to_nat (payload_length payload_packet) ≤ length (payload payload_packet))%nat
  ∧ ∃ rest,
      ex_calls (@greatfet_execute_libgreat_command example_protocol_h
                  (sample_env 0 [pump_completes []]) (sample_env 0 [])
                  sample_device payload_packet None 0 1000)
      = [Call_sync_async_control_transfer 66 101 0 1 11;
         Call_libusb_alloc_transfer;
         Call_malloc 20;
         Call_libusb_submit_transfer
           (setup_packet 66 101 0 1 11
            ++ [x0d; x01; x00; x00] ++ [x02; x00; x00; x00]
            ++ [x0a; x0b; x0c] ++ [xff])] ++ rest.
Proof.
  assert (Hfit : (Z.to_nat (payload_length payload_packet)
                  ≤ length (payload payload_packet))%nat)
    by (vm_compute; lia).
  pose proof (@command_bytes_submitted example_protocol_h
                (sample_env 0 [pump_completes []]) (sample_env 0 [])
                sample_device payload_packet None 0 1000 7%nat (λ _, xff)
                eq_refl eq_refl eq_refl ltac:(discriminate) eq_refl Hfit)
    as ((rest & Hrest) & _).
  split; [exact Hfit|]. exists rest. exact Hrest.
Defined.


(** Allocating four slots, and failing at the third. *)
Lemma allocate_transfers_sample :
  length (transfers (priv sample_device)) = @GREATFET_TRANSFER_POOL_SIZE example_protocol_h
  ∧ alloc_rc (@greatfet_allocate_transfers example_protocol_h alloc_all sample_device)
    = 0
  ∧ transfers (alloc_context
                 (@greatfet_allocate_transfers example_protocol_h alloc_all
                    sample_device))
    = [Some 100; Some 101; Some 102; Some 103]%nat
  ∧ alloc_rc (@greatfet_allocate_transfers example_protocol_h alloc_fails_at_2
                sample_device) = ENOMEM
  ∧ transfers (alloc_context
                 (@greatfet_allocate_transfers example_protocol_h alloc_fails_at_2
                    sample_device))
    = [Some 100; Some 101; None; Some 14]%nat.
Proof.
  pose proof (@allocate_transfers_fills_until_failure example_protocol_h
                alloc_all sample_device eq_refl) as (H1 & _).
  pose proof (@allocate_transfers_fills_until_failure example_protocol_h
                alloc_fails_at_2 sample_device eq_refl) as (_ & H2 & _).
  destruct (H1 ltac:(intros i _; discriminate)) as (A & B & _).
  assert (Hgood : ∀ i, (i < 2)%nat → alloc_fails_at_2 i ≠ None).
  { intros i Hi. destruct i as [|[|i]]; [discriminate|discriminate|lia]. }
  destruct (H2 2%nat ltac:(vm_compute; lia) Hgood eq_refl) as (C & D).
  split; [reflexivity|]. split; [exact A|]. split; [rewrite B; reflexivity|].
  split; [exact C|]. rewrite D. reflexivity.
Defined.

(** Freeing after an allocation that failed at the third slot of a null
    pool frees the two transfers obtained. *)
Lemma allocate_then_free_sample :
  length (transfers (priv null_pool_device))
    = @GREATFET_TRANSFER_POOL_SIZE example_protocol_h
  ∧ freed (@greatfet_free_transfers example_protocol_h
             (alloc_context (@greatfet_allocate_transfers example_protocol_h
                               alloc_fails_at_2 null_pool_device)))
    = [100; 101]%nat
  ∧ freed (@greatfet_free_transfers example_protocol_h
             (alloc_context (@greatfet_allocate_transfers example_protocol_h
                               alloc_all sample_device)))
    = [100; 101; 102; 103]%nat.
Proof.
  pose proof (@allocate_then_free example_protocol_h alloc_fails_at_2
                null_pool_device eq_refl) as (_ & _ & H3).
  pose proof (@allocate_then_free example_protocol_h alloc_all
                sample_device eq_refl) as (H1 & _).
  split; [reflexivity|]. split.
  - rewrite H3 by (repeat constructor). reflexivity.
  - rewrite H1. reflexivity.
Defined.

Lemma full_pool_ready :
  Forall (@slot_ready example_acquisition_h (λ _, false) (λ _, 0) full_pool_device)
         (seq 0 (@GREATFET_TRANSFER_POOL_SIZE example_protocol_h)).
Proof.
  repeat constructor; eexists; (split; [reflexivity|split; reflexivity]).
Defined.

(** Four live slots: four submissions, 512 bytes apart. *)
Lemma prepare_transfers_sample :
  @prep_outcome
    (@greatfet_prepare_transfers example_protocol_h example_acquisition_h
       (λ _, false) (λ _, 0) full_pool_device 5%nat) = Returned 0
  ∧ map bulk_offset
      (prep_submitted
         (@greatfet_prepare_transfers example_protocol_h example_acquisition_h
            (λ _, false) (λ _, 0) full_pool_device 5%nat))
    = [0; 512; 1024; 1536]%nat.
Proof.
  pose proof (@prepare_transfers_submits_every_slot example_protocol_h
                example_acquisition_h (λ _, false) (λ _, 0) full_pool_device 5%nat
                full_pool_ready) as (H1 & _ & H3 & _).
  split; [exact H1|]. rewrite H3. reflexivity.
Defined.

(** A null second slot faults after one submission; a refusal of the
    third transfer gives [EIO] after three. *)
Lemma prepare_transfers_failure_sample :
  prep_outcome
    (@greatfet_prepare_transfers example_protocol_h example_acquisition_h
       (λ _, false) (λ _, 0) sample_device 5%nat) = Faults
  ∧ length (prep_submitted
      (@greatfet_prepare_transfers example_protocol_h example_acquisition_h
         (λ _, false) (λ _, 0) sample_device 5%nat)) = 1%nat
  ∧ prep_outcome
      (@greatfet_prepare_transfers example_protocol_h example_acquisition_h
         (λ _, false) submit_refuses_13 full_pool_device 5%nat) = Returned EIO
  ∧ map bulk_transfer (prep_submitted
      (@greatfet_prepare_transfers example_protocol_h example_acquisition_h
         (λ _, false) submit_refuses_13 full_pool_device 5%nat))
    = [11; 12; 13]%nat.
Proof.
  assert (Hr1 : Forall (@slot_ready example_acquisition_h (λ _, false) (λ _, 0)
                          sample_device) (seq 0 1)).
  { repeat constructor; eexists; (split; [reflexivity|split; reflexivity]). }
  assert (Hr2 : Forall (@slot_ready example_acquisition_h (λ _, false)
                          submit_refuses_13 full_pool_device) (seq 0 2)).
  { repeat constructor; eexists; (split; [reflexivity|split; reflexivity]). }
  pose proof (@prepare_transfers_stops_at_first_failure example_protocol_h
                example_acquisition_h (λ _, false) (λ _, 0) sample_device 5%nat
                1%nat ltac:(vm_compute; lia) Hr1) as (H1 & _ & _ & H4).
  pose proof (@prepare_transfers_stops_at_first_failure example_protocol_h
                example_acquisition_h (λ _, false) submit_refuses_13
                full_pool_device 5%nat 2%nat ltac:(vm_compute; lia) Hr2)
    as (_ & _ & H3 & _).
  destruct (H1 eq_refl) as (A & B).
  destruct (H3 13%nat eq_refl eq_refl ltac:(discriminate)) as (C & D).
  split; [exact A|]. split; [rewrite B; exact H4|].
  split; [exact C|]. rewrite D. reflexivity.
Defined.

(** Starting on a device with a null handle, and on the sample
    device. *)
Lemma start_acquire_sample :
  acq_outcome (@greatfet_start_acquire example_protocol_h example_acquisition_h
                 (sample_env 0 []) (sample_env 0 []) (λ _, x07)
                 (sample_env 0 [pump_completes []]) closed_device)
    = Returned (@SR_ERR_IO example_acquisition_h)
  ∧ acq_outcome (@greatfet_start_acquire example_protocol_h example_acquisition_h
                   (sample_env 0 [pump_completes []])
                   (sample_env 0 [pump_completes reply_a]) (λ _, x00)
                   (sample_env 0 [pump_completes []]) sample_device)
    = Returned (@SR_OK example_acquisition_h)
  ∧ count_calls is_control_transfer
      (acq_calls (@greatfet_start_acquire example_protocol_h example_acquisition_h
                    (sample_env 0 [pump_completes []])
                    (sample_env 0 [pump_completes reply_a]) (λ _, x00)
                    (sample_env 0 [pump_completes []]) sample_device)) = 3%nat.
Proof.
  pose proof (@start_acquire_configures_then_starts example_protocol_h
                example_acquisition_h (sample_env 0 []) (sample_env 0 []) (λ _, x07)
                (sample_env 0 [pump_completes []]) closed_device) as (H1 & _).
  pose proof (@start_acquire_configures_then_starts example_protocol_h
                example_acquisition_h (sample_env 0 [pump_completes []])
                (sample_env 0 [pump_completes reply_a]) (λ _, x00)
                (sample_env 0 [pump_completes []]) sample_device) as (_ & H2 & _).
  destruct (H1 LIBUSB_ERROR_INVALID_PARAM eq_refl eq_refl) as (A & _).
  destruct (H2 0 eq_refl (Z.le_refl 0)) as (B & _ & C & _).
  split; [exact A|]. split; [exact (C 0 eq_refl)|].
  rewrite B. reflexivity.
Defined.

Lemma stop_acquire_sample :
  stop_outcome (@greatfet_stop_acquire example_protocol_h example_acquisition_h
                  (sample_env 0 [pump_completes []]) sample_device)
    = Returned (@SR_OK example_acquisition_h)
  ∧ stop_outcome (@greatfet_stop_acquire example_protocol_h example_acquisition_h
                    (sample_env 0 [pump_completes []]) closed_device)
    = Returned (@SR_ERR_IO example_acquisition_h)
  ∧ head (stop_calls (@greatfet_stop_acquire example_protocol_h example_acquisition_h
                        (sample_env 0 [pump_completes []]) sample_device))
    = Some (Acq_libusb_release_interface 1).
Proof.
  pose proof (@stop_acquire_releases_then_stops example_protocol_h
                example_acquisition_h (sample_env 0 [pump_completes []])
                sample_device) as (H1 & _ & _ & H4 & _).
  pose proof (@stop_acquire_releases_then_stops example_protocol_h
                example_acquisition_h (sample_env 0 [pump_completes []])
                closed_device) as (_ & _ & _ & H5 & _).
  split; [exact (H4 0 eq_refl)|].
  split; [exact (H5 LIBUSB_ERROR_INVALID_PARAM eq_refl)|].
  rewrite H1. reflexivity.
Defined.

(** Rates 25000000 and 25000000 + 2^32 give the same packet. *)
Lemma configure_packet_sample :
  read_le32 0 (payload (@configure_packet example_protocol_h sample_context))
    = 25000000
  ∧ read_u8 4 (payload (@configure_packet example_protocol_h sample_context)) = 8
  ∧ @configure_packet example_protocol_h
      (set_transfers {| sample_rate := 4319967296; num_channels := 264;
                        la_endpoint := 0; endpoint := 0; transfers := [];
                        capture_buffer := [] |} [])
    = @configure_packet example_protocol_h sample_context.
Proof.
  pose proof (@configure_packet_payload example_protocol_h sample_context)
    as (_ & _ & _ & H4 & H5 & H6).
  split; [rewrite H4; reflexivity|]. split; [rewrite H5; reflexivity|].
  apply H6; reflexivity.
Defined.
